(** * Court dashboard: the dispute phase and timeline calculator

  A shallow embedding of [utils/dispute-utils.js]:
  [getPhaseAndTransition], [getAdjudicationPhase],
  [getRoundPhasesAndTime] and [getDisputeTimeLine], followed by the
  properties of the phase engine.

  Timestamps, term counts and round numbers are JavaScript numbers
  holding integers; they are embedded as [Z]. *)

From Stdlib Require Import ZArith List Lia Bool String.
From Stdlib Require DecimalString.
Import ListNotations.
Local Open Scope Z_scope.

(* ===================================================================== *)
(** ** The fragment of the JavaScript runtime the module relies on *)
(* ===================================================================== *)

Module Js.

(** The only exception the module can raise: destructuring or reading a
    property of [undefined]. *)
Inductive error : Type := TypeError.

(** A call either returns a value or throws. *)
Inductive completion (A : Type) : Type :=
| Return (a : A)
| Throw (e : error).
Arguments Return {A} a.
Arguments Throw {A} e.

Definition bind {A B : Type} (c : completion A) (k : A -> completion B)
  : completion B :=
  match c with
  | Return a => k a
  | Throw e => Throw e
  end.

(** [const { ... } = v] and [v.prop]: a [TypeError] when [v] is
    [undefined]. *)
Definition defined {A : Type} (v : option A) : completion A :=
  match v with
  | Some a => Return a
  | None => Throw TypeError
  end.

(** [arr[i]] for a numeric [i]: [undefined] outside [0 .. length-1]. *)
Definition index {A : Type} (arr : list A) (i : Z) : option A :=
  if i <? 0 then None else nth_error arr (Z.to_nat i).

(** [arr.findIndex(p)]: first position satisfying [p], or [-1]. *)
Fixpoint findIndexFrom {A : Type} (p : A -> bool) (arr : list A) (i : Z) : Z :=
  match arr with
  | [] => -1
  | x :: rest => if p x then i else findIndexFrom p rest (i + 1)
  end.

Definition findIndex {A : Type} (p : A -> bool) (arr : list A) : Z :=
  findIndexFrom p arr 0.

(** [arr.slice(start, end)], negative arguments counting from the end. *)
Definition clampIndex (len i : Z) : Z :=
  if i <? 0 then Z.max (len + i) 0 else Z.min i len.

Definition slice {A : Type} (arr : list A) (start stop : Z) : list A :=
  let len := Z.of_nat (List.length arr) in
  let k := clampIndex len start in
  let final := clampIndex len stop in
  firstn (Z.to_nat (final - k)) (skipn (Z.to_nat k) arr).

(** [dayjs(date).unix()]: whole seconds since the epoch, that is
    [Math.floor(date.valueOf() / 1000)]; [date] is given by its time
    value in milliseconds. *)
Definition dayjs_unix (date : Z) : Z := date / 1000.

(** Arithmetic on a number read from a key an object may lack.  [None] is
    [undefined] as an operand and [NaN] as a result: [undefined * n] and
    [n + NaN] are [NaN], and [n < NaN] is false. *)
Definition mulNum (a : option Z) (b : Z) : option Z :=
  option_map (fun n => n * b) a.

Definition addNum (a : Z) (b : option Z) : option Z :=
  option_map (fun n => a + n) b.

Definition ltNum (a : Z) (b : option Z) : bool :=
  match b with
  | Some n => a <? n
  | None => false
  end.

End Js.

Import Js.

Declare Scope js_scope.
Delimit Scope js_scope with js.
Notation "x <- c ;; k" := (Js.bind c (fun x => k))
(at level 61, c at next level, right associativity) : js_scope.

(* ===================================================================== *)
(** ** Data model *)
(* ===================================================================== *)

(** Modelled from the spec: the [Phase] table of [types/types.js], which is
  not among the sources.  The spec describes it as a table of ad hoc
  string/symbol constants compared with [===]; it has one constant per
  name the code reads, and distinct names are distinct constants. *)
Inductive Phase : Type :=
| Created
| Evidence
| JuryDrafting
| Adjudicating
| Ruled
| VotingPeriod
| RevealVote
| Appealing
| AppealRuling
| ConfirmingAppeal
| ConfirmAppeal
| ExecuteRuling
| ClaimRewards.

Definition Phase_eq_dec (p q : Phase) : {p = q} + {p <> q}.
Proof. decide equality. Defined.

(** [p === q] on two phase constants. *)
Definition Phase_eqb (p q : Phase) : bool :=
if Phase_eq_dec p q then true else false.

(** The values that reach a [===] in [getDisputeTimeLine]. *)
Inductive value : Type :=
| VUndefined
| VPhase (p : Phase).

Definition value_eq_dec (v w : value) : {v = w} + {v <> w}.
Proof. decide equality. apply Phase_eq_dec. Defined.

Definition strictEq (v w : value) : bool :=
if value_eq_dec v w then true else false.

(** [p.key] where [p] is a phase constant.  A string or symbol primitive
  has no property called [ExecuteRuling] or [ClaimRewards], neither of
  its own nor on its prototype: the read gives [undefined]. *)
Definition phaseMember (p : Phase) (key : string) : value := VUndefined.

(** [null], the placeholder ruling. *)
Inductive null : Type := Null.

(** The appeal object of a round; the module only tests its presence. *)
Inductive AppealObj : Type := AppealRecord.

(** The fields of [courtConfig] the module reads.  [getAdjudicationPhase]
  reads [appealConfirmTerms] where [getRoundPhasesAndTime] reads
  [appealConfirmationTerms]; both are kept, as read.  The court
  configuration has the key [appealConfirmationTerms]; a configuration
  without a key [appealConfirmTerms] has [None] there, and the read gives
  [undefined]. *)
Module CourtConfig.
Record t : Type := mk {
  termDuration : Z;
  evidenceTerms : Z;
  commitTerms : Z;
  revealTerms : Z;
  appealTerms : Z;
  appealConfirmTerms : option Z;
  appealConfirmationTerms : Z;
  maxRegularAppealRounds : Z
}.
End CourtConfig.

Module Round.
Record t : Type := mk {
  number : Z;
  draftTermId : Z;
  delayedTerms : Z;
  createdAt : Z;
  appeal : option AppealObj
}.
End Round.

Module Dispute.
Record t : Type := mk {
  state : Phase;
  createdAt : Z;
  rounds : list Round.t;
  lastRoundId : Z
}.
End Dispute.

(** What [getAdjudicationPhase] returns: [{ phase, nextTransition }] or
  [{ phase }]. *)
Module Adjudication.
Record t : Type := mk {
  phase : Phase;
  nextTransition : option Z
}.
End Adjudication.

(** What [getPhaseAndTransition] returns: [{ phase, ruling, roundId }] when
  ruled, [{ phase, nextTransition, roundId }] otherwise; an absent key is
  [None]. *)
Module Current.
Record t : Type := mk {
  phase : Phase;
  nextTransition : option Z;
  ruling : option null;
  roundId : Z
}.
End Current.

(** An entry of the timeline; absent keys are [None]. *)
Module Entry.
Record t : Type := mk {
  phase : Phase;
  endTime : option Z;
  active : option bool;
  roundId : option Z
}.
End Entry.

(** The timeline array holds entries and, pushed as one element, the array
  of the rounds' ladders. *)
Inductive TimeLineItem : Type :=
| Item (e : Entry.t)
| RoundsItem (ladders : list (list Entry.t)).

(** [!!round.appeal] *)
Definition truthy {A : Type} (v : option A) : bool :=
match v with Some _ => true | None => false end.

(* ===================================================================== *)
(** ** The phase engine *)
(* ===================================================================== *)

Definition juryDraftingTerms : Z := 3.

Section PhaseEngine.

(** [getTermStartTime] of [utils/court-utils.js] is not among the
    sources; the engine is parameterised by it. *)
Variable getTermStartTime : Z -> CourtConfig.t -> Z.

(** [appealConfirmationTermEndTime] is [NaN] when [courtConfig] has no key
    [appealConfirmTerms]; the return that carries it is taken under
    [now < appealConfirmationTermEndTime] only, hence with a number. *)
Definition getAdjudicationPhase (dispute : Dispute.t) (round : Round.t)
    (now draftTermEndTime : Z) (courtConfig : CourtConfig.t)
  : Adjudication.t :=
  let termDuration := CourtConfig.termDuration courtConfig in
  let commitTerms := CourtConfig.commitTerms courtConfig in
  let revealTerms := CourtConfig.revealTerms courtConfig in
  let appealTerms := CourtConfig.appealTerms courtConfig in
  let appealConfirmTerms := CourtConfig.appealConfirmTerms courtConfig in
  let maxRegularAppealRounds := CourtConfig.maxRegularAppealRounds courtConfig in
  let numberOfRounds := Z.of_nat (List.length (Dispute.rounds dispute)) in
  let revealTermStartTime := draftTermEndTime + commitTerms * termDuration in
  if now <? revealTermStartTime then
    Adjudication.mk VotingPeriod (Some revealTermStartTime)
  else
  let appealTermStartTime := revealTermStartTime + revealTerms * termDuration in
  if now <? appealTermStartTime then
    Adjudication.mk RevealVote (Some appealTermStartTime)
  else
  let maxAppealReached := numberOfRounds >? maxRegularAppealRounds in
  if maxAppealReached then
    Adjudication.mk ExecuteRuling None
  else
  let isLastRoundAppealed := truthy (Round.appeal round) in
  let appealConfirmationTermStartTime :=
    appealTermStartTime + appealTerms * termDuration in
  if negb isLastRoundAppealed then
    if now <? appealConfirmationTermStartTime then
      Adjudication.mk Appealing (Some appealConfirmationTermStartTime)
    else
      Adjudication.mk ExecuteRuling None
  else
  let appealConfirmationTermEndTime :=
    addNum appealConfirmationTermStartTime
           (mulNum appealConfirmTerms termDuration) in
  if ltNum now appealConfirmationTermEndTime then
    Adjudication.mk ConfirmingAppeal appealConfirmationTermEndTime
  else
    Adjudication.mk ExecuteRuling None.

(** The result is [Return None] when the function falls off its end and
    yields [undefined]. *)
Definition getPhaseAndTransition (dispute : Dispute.t)
    (courtConfig : CourtConfig.t) (nowDate : Z)
  : completion (option Current.t) :=
  (let state := Dispute.state dispute in
   let createdAt := Dispute.createdAt dispute in
   let now := dayjs_unix nowDate * 1000 in
   lastRound <-
     defined (index (Dispute.rounds dispute) (Dispute.lastRoundId dispute)) ;;
   let number := Round.number lastRound in
   let draftTermId := Round.draftTermId lastRound in
   let delayedTerms := Round.delayedTerms lastRound in
   if Phase_eqb state Ruled then
     Return (Some (Current.mk ClaimRewards None (Some Null) number))
   else
   let termDuration := CourtConfig.termDuration courtConfig in
   let evidenceTerms := CourtConfig.evidenceTerms courtConfig in
   if Phase_eqb state Evidence then
     let evidenceSubmissionEndTime := createdAt + termDuration * evidenceTerms in
     if now >? evidenceSubmissionEndTime then
       Return (Some (Current.mk JuryDrafting
         (Some (evidenceSubmissionEndTime + termDuration * juryDraftingTerms))
         None number))
     else
       Return (Some (Current.mk state (Some evidenceSubmissionEndTime)
         None number))
   else
   if Phase_eqb state JuryDrafting then
     let createdAt := Round.createdAt lastRound in
     Return (Some (Current.mk JuryDrafting
       (Some (createdAt + termDuration * juryDraftingTerms)) None number))
   else
   if Phase_eqb state Adjudicating then
     let draftTermEndTime :=
       getTermStartTime (draftTermId + delayedTerms) courtConfig in
     let currentAdjudicationPhase :=
       getAdjudicationPhase dispute lastRound now draftTermEndTime courtConfig in
     Return (Some (Current.mk
       (Adjudication.phase currentAdjudicationPhase)
       (Adjudication.nextTransition currentAdjudicationPhase)
       None number))
   else
     Return None)%js.

(** The five-stage ladder of a round, before truncation. *)
Definition roundPhasesAndTime (courtConfig : CourtConfig.t)
    (round : Round.t) (currentPhase : Current.t) : list Entry.t :=
  let termDuration := CourtConfig.termDuration courtConfig in
  let commitTerms := CourtConfig.commitTerms courtConfig in
  let revealTerms := CourtConfig.revealTerms courtConfig in
  let appealTerms := CourtConfig.appealTerms courtConfig in
  let appealConfirmationTerms :=
    CourtConfig.appealConfirmationTerms courtConfig in
  let draftTermId := Round.draftTermId round in
  let delayedTerms := Round.delayedTerms round in
  let roundId := Round.number round in
  let createdAt := Round.createdAt round in
  let disputeDraftTermTime :=
    getTermStartTime (draftTermId + delayedTerms) courtConfig in
  [ Entry.mk JuryDrafting
      (Some (createdAt + termDuration * juryDraftingTerms))
      (Some (Phase_eqb JuryDrafting (Current.phase currentPhase)))
      (Some roundId);
    Entry.mk VotingPeriod
      (Some (disputeDraftTermTime + termDuration * commitTerms))
      (Some (Phase_eqb VotingPeriod (Current.phase currentPhase)))
      (Some roundId);
    Entry.mk RevealVote
      (Some (disputeDraftTermTime + termDuration * (commitTerms + revealTerms)))
      (Some (Phase_eqb RevealVote (Current.phase currentPhase)))
      (Some roundId);
    Entry.mk AppealRuling
      (Some (disputeDraftTermTime
             + termDuration * (commitTerms + revealTerms + appealTerms)))
      (Some (Phase_eqb AppealRuling (Current.phase currentPhase)))
      (Some roundId);
    Entry.mk ConfirmAppeal
      (Some (disputeDraftTermTime
             + termDuration
               * (commitTerms + revealTerms + appealTerms
                  + appealConfirmationTerms)))
      (Some (Phase_eqb ConfirmAppeal (Current.phase currentPhase)))
      (Some roundId) ].

Definition getRoundPhasesAndTime (courtConfig : CourtConfig.t)
    (round : Round.t) (currentPhase : Current.t) : list Entry.t :=
  let roundId := Round.number round in
  let roundPhasesAndTime := roundPhasesAndTime courtConfig round currentPhase in
  if roundId <? Current.roundId currentPhase then
    roundPhasesAndTime
  else
  let currentPhaseIndex :=
    findIndex
      (fun phase => Phase_eqb (Entry.phase phase) (Current.phase currentPhase))
      roundPhasesAndTime in
  slice roundPhasesAndTime 0 (currentPhaseIndex + 1).

(** [clock] is the reading of [new Date()] taken inside the function, in
    milliseconds. *)
Definition getDisputeTimeLine (dispute : Dispute.t)
    (courtConfig : CourtConfig.t) (clock : Z)
  : completion (list TimeLineItem) :=
  (let createdAt := Dispute.createdAt dispute in
   let termDuration := CourtConfig.termDuration courtConfig in
   let evidenceTerms := CourtConfig.evidenceTerms courtConfig in
   result <- getPhaseAndTransition dispute courtConfig clock ;;
   currentPhaseAndTime <- defined result ;;
   let timeLine :=
     [ Item (Entry.mk Created (Some createdAt) None None);
       Item (Entry.mk Evidence
               (Some (createdAt + termDuration * evidenceTerms))
               (Some (Phase_eqb (Current.phase currentPhaseAndTime) Evidence))
               None) ] in
   let rounds :=
     map (fun round => getRoundPhasesAndTime courtConfig round currentPhaseAndTime)
         (Dispute.rounds dispute) in
   if (List.length rounds =? 0)%nat then
     Return timeLine
   else
   let timeLine := timeLine ++ [RoundsItem rounds] in
   if strictEq (VPhase ExecuteRuling)
        (phaseMember (Current.phase currentPhaseAndTime) "ExecuteRuling"%string)
   then
     Return (timeLine ++
       [ Item (Entry.mk ExecuteRuling None
           (Some (strictEq (VPhase ExecuteRuling)
              (phaseMember (Current.phase currentPhaseAndTime) "ExecuteRuling"%string)))
           None) ])
   else
   if strictEq (VPhase ClaimRewards)
        (phaseMember (Current.phase currentPhaseAndTime) "ClaimRewards"%string)
   then
     Return (timeLine ++
       [ Item (Entry.mk ClaimRewards None
           (Some (Phase_eqb (Current.phase currentPhaseAndTime) ClaimRewards))
           None) ])
   else
     Return timeLine)%js.

End PhaseEngine.

(* ===================================================================== *)
(** ** The mock jurors *)
(* ===================================================================== *)

(** [mock/data/Jurors.js] builds one juror per test account, for the first
    three accounts. *)

(** A string of decimal digits coerced by [*]: its value; [None] stands for
    [NaN].  A number in a template literal: its decimal digits, or [NaN].
    Both on integers, which is all the module feeds them. *)
Definition toNumber (s : string) : option Z :=
  option_map Z.of_int (DecimalString.NilZero.int_of_string s).

Definition numberToString (n : option Z) : string :=
  match n with
  | Some z => DecimalString.NilZero.string_of_int (Z.to_int z)
  | None => "NaN"
  end.

(** [arr.map((x, index) => f x index)] *)
Fixpoint mapWithIndexFrom {A B : Type} (f : A -> Z -> B) (arr : list A)
    (index : Z) : list B :=
  match arr with
  | [] => []
  | x :: rest => f x index :: mapWithIndexFrom f rest (index + 1)
  end.

Definition mapWithIndex {A B : Type} (f : A -> Z -> B) (arr : list A)
  : list B :=
  mapWithIndexFrom f arr 0.

(** The literal [[]] of a field nothing is ever put in. *)
Inductive nothing : Type := .

Module Movement.
Record t (Amount MovementType : Type) : Type := mk {
  amount : Amount;
  effectiveTermId : Z;
  createdAt : string;
  type : MovementType
}.
Arguments mk {Amount MovementType}.
Arguments amount {Amount MovementType}.
Arguments effectiveTermId {Amount MovementType}.
Arguments createdAt {Amount MovementType}.
Arguments type {Amount MovementType}.
End Movement.

Module Juror.
Record t (Amount MovementType : Type) : Type := mk {
  id : string;
  walletBalance : string;
  activeBalance : Amount;
  lockedBalance : string;
  availableBalance : string;
  deactivationBalance : string;
  treasuryTokens : list nothing;
  anjMovements : list (Movement.t Amount MovementType);
  drafts : list nothing
}.
Arguments mk {Amount MovementType}.
Arguments id {Amount MovementType}.
Arguments walletBalance {Amount MovementType}.
Arguments activeBalance {Amount MovementType}.
Arguments lockedBalance {Amount MovementType}.
Arguments availableBalance {Amount MovementType}.
Arguments deactivationBalance {Amount MovementType}.
Arguments treasuryTokens {Amount MovementType}.
Arguments anjMovements {Amount MovementType}.
Arguments drafts {Amount MovementType}.
End Juror.

Definition ACTIVE_BASE_BALANCE : string := "10000".
Definition numberOfJurors : Z := 3.

Section MockJurors.

(** The helpers and the table of movement types are defined elsewhere
    ([mock/helper.js], [mock/types.js]): the test accounts, [bigExp] from a
    decimal string to a big number, and the two movement types read here. *)
Variables (Amount MovementType : Type).
Variable accounts : list string.
Variable bigExp : string -> Amount.
Variables (Activation Stake : MovementType).

Definition generateJurors : list (Juror.t Amount MovementType) :=
  mapWithIndex
    (fun account index =>
       let activeBalance :=
         bigExp (numberToString
                   (option_map (fun base => base * (index + 1))
                               (toNumber ACTIVE_BASE_BALANCE))) in
       Juror.mk account "0" activeBalance "0" "0" "0" []
         [ Movement.mk activeBalance 3 "1" Activation;
           Movement.mk activeBalance 3 "1" Stake ]
         [])
    (slice accounts 0 numberOfJurors).

End MockJurors.

(* ===================================================================== *)
(** ** Well-formed inputs and concrete data *)
(* ===================================================================== *)

(** The data-model invariant on [CourtConfig]: the term duration and the
    term counts the ladder adds up are non-negative; so is
    [appealConfirmTerms] when the configuration has it. *)
Definition nonNegativeConfig (c : CourtConfig.t) : Prop :=
  0 <= CourtConfig.termDuration c /\
  0 <= CourtConfig.evidenceTerms c /\
  0 <= CourtConfig.commitTerms c /\
  0 <= CourtConfig.revealTerms c /\
  0 <= CourtConfig.appealTerms c /\
  match CourtConfig.appealConfirmTerms c with
  | Some terms => 0 <= terms
  | None => True
  end /\
  0 <= CourtConfig.appealConfirmationTerms c.

(** The stages of a round and their end times, as the timeline is to show
    them: jury drafting ends three terms after the round was created; the
    commit, reveal, appeal and appeal-confirmation stages end one after the
    other, each its number of terms after the one before, the first of them
    counted from the end of the draft term. *)
Definition stageEndTimes (draftTermEndTime : Z) (courtConfig : CourtConfig.t)
    (round : Round.t) : list (Phase * Z) :=
  let termDuration := CourtConfig.termDuration courtConfig in
  let commitEnd :=
    draftTermEndTime + CourtConfig.commitTerms courtConfig * termDuration in
  let revealEnd :=
    commitEnd + CourtConfig.revealTerms courtConfig * termDuration in
  let appealEnd :=
    revealEnd + CourtConfig.appealTerms courtConfig * termDuration in
  let confirmEnd :=
    appealEnd + CourtConfig.appealConfirmationTerms courtConfig * termDuration in
  [ (JuryDrafting, Round.createdAt round + termDuration * 3);
    (VotingPeriod, commitEnd);
    (RevealVote, revealEnd);
    (AppealRuling, appealEnd);
    (ConfirmAppeal, confirmEnd) ].

(** The timeline entry of a stage of [round] while the dispute is at
    [current]: the stage, its end time, whether it is the current phase, and
    the number of the round. *)
Definition stageEntry (round : Round.t) (current : Current.t)
    (stage : Phase * Z) : Entry.t :=
  Entry.mk (fst stage) (Some (snd stage))
    (Some (Phase_eqb (fst stage) (Current.phase current)))
    (Some (Round.number round)).

(** The position of a phase in the ordered sequence Evidence, JuryDrafting,
    VotingPeriod, RevealVote, Appealing, ConfirmingAppeal, ExecuteRuling,
    ClaimRewards; the other constants are not in the sequence. *)
Definition phaseRank (p : Phase) : option nat :=
  match p with
  | Evidence => Some 0%nat
  | JuryDrafting => Some 1%nat
  | VotingPeriod => Some 2%nat
  | RevealVote => Some 3%nat
  | Appealing => Some 4%nat
  | ConfirmingAppeal => Some 5%nat
  | ExecuteRuling => Some 6%nat
  | ClaimRewards => Some 7%nat
  | _ => None
  end.

(** Two outcomes of the resolver, the second never at an earlier phase than
    the first. *)
Definition neverEarlier (r1 r2 : completion (option Current.t)) : Prop :=
  match r1, r2 with
  | Return (Some c1), Return (Some c2) =>
      exists i j, phaseRank (Current.phase c1) = Some i /\
                  phaseRank (Current.phase c2) = Some j /\ (i <= j)%nat
  | Return None, Return None => True
  | Throw e1, Throw e2 => e1 = e2
  | _, _ => False
  end.

(** [p] comes after [stage] in the ordered sequence of phases. *)
Definition laterThan (stage p : Phase) : Prop :=
  exists i j, phaseRank stage = Some i /\ phaseRank p = Some j /\ (i < j)%nat.

Module Sample.

(** A court whose term 0 starts at the epoch. *)
Definition termStart (termId : Z) (c : CourtConfig.t) : Z :=
  termId * CourtConfig.termDuration c.

(** Terms of ten seconds; two terms per stage; the keys of the court
    configuration, so none called [appealConfirmTerms]. *)
Definition config : CourtConfig.t :=
  CourtConfig.mk 10000 2 2 2 2 None 2 4.

(** The same court, its configuration carrying [appealConfirmTerms] too. *)
Definition bothKeysConfig : CourtConfig.t :=
  CourtConfig.mk 10000 2 2 2 2 (Some 2) 2 4.

(** The same court with no regular appeal round allowed. *)
Definition cappedConfig : CourtConfig.t :=
  CourtConfig.mk 10000 2 2 2 2 None 2 0.

Definition round0 (a : option AppealObj) : Round.t :=
  Round.mk 0 100 0 30000 a.

Definition dispute (s : Phase) (a : option AppealObj) : Dispute.t :=
  Dispute.mk s 0 [round0 a] 0.

Definition noRounds (s : Phase) : Dispute.t :=
  Dispute.mk s 0 [] (-1).

(** A court with terms of 100 ms and two terms of evidence, one term for
    every other stage, and a dispute of it in evidence submission, which
    ends at 200. *)
Definition shortTermsConfig : CourtConfig.t :=
  CourtConfig.mk 100 2 1 1 1 None 1 1.

Definition inEvidence : Dispute.t :=
  Dispute.mk Evidence 0 [round0 None] 0.

End Sample.

Module Appealed.

(** A dispute of the sample court in its second round: the first round was
    appealed, the second was drafted at term 110. *)
Definition round0 : Round.t := Round.mk 0 100 0 30000 (Some AppealRecord).
Definition round1 : Round.t := Round.mk 1 110 0 1090000 None.

Definition dispute (s : Phase) : Dispute.t :=
  Dispute.mk s 0 [round0; round1] 1.

End Appealed.

(* ===================================================================== *)
(** ** Basic facts *)
(* ===================================================================== *)

Lemma Phase_eqb_refl (p : Phase) : Phase_eqb p p = true.
Proof. unfold Phase_eqb. destruct (Phase_eq_dec p p); congruence. Qed.

Lemma Phase_eqb_eq (p q : Phase) : Phase_eqb p q = true <-> p = q.
Proof.
  unfold Phase_eqb. destruct (Phase_eq_dec p q); split; congruence.
Qed.

Lemma Phase_eqb_neq (p q : Phase) : Phase_eqb p q = false <-> p <> q.
Proof.
  unfold Phase_eqb. destruct (Phase_eq_dec p q); split; congruence.
Qed.

(** Whole seconds never run ahead of the clock, and follow it. *)
Lemma dayjs_unix_le (date : Z) : dayjs_unix date * 1000 <= date.
Proof.
  unfold dayjs_unix. pose proof (Z.mul_div_le date 1000). lia.
Qed.

Lemma dayjs_unix_mono (d1 d2 : Z) :
  d1 <= d2 -> dayjs_unix d1 * 1000 <= dayjs_unix d2 * 1000.
Proof.
  intros H. unfold dayjs_unix.
  pose proof (Z.div_le_mono d1 d2 1000). lia.
Qed.

(** A dispute that keeps the data-model invariant and has a round has a
    last round for the resolver to read. *)
Lemma lastRound_defined (d : Dispute.t) :
  Dispute.rounds d <> [] ->
  Dispute.lastRoundId d = Z.of_nat (List.length (Dispute.rounds d)) - 1 ->
  exists lastRound,
    index (Dispute.rounds d) (Dispute.lastRoundId d) = Some lastRound.
Proof.
  intros Hne Hid. unfold index. rewrite Hid.
  destruct (Dispute.rounds d) as [|r rs]; [congruence|].
  cbn [List.length].
  destruct (Z.ltb_spec (Z.of_nat (S (List.length rs)) - 1) 0); [lia|].
  destruct (nth_error (r :: rs) (Z.to_nat (Z.of_nat (S (List.length rs)) - 1)))
    as [x|] eqn:E; [now exists x|].
  apply nth_error_None in E. cbn [List.length] in E. lia.
Qed.

Lemma index_nil (A : Type) (i : Z) : index (@nil A) i = None.
Proof.
  unfold index. destruct (i <? 0); [reflexivity|].
  now destruct (Z.to_nat i).
Qed.

(** Decide the [===] tests between phase constants. *)
Ltac phase_tests :=
  repeat match goal with
  | |- context [Phase_eqb ?p ?q] =>
      is_constructor p; is_constructor q;
      let b := eval vm_compute in (Phase_eqb p q) in
      change (Phase_eqb p q) with b
  end;
  cbv iota.

(** Case analysis on every comparison of a deadline ladder. *)
Ltac ladder :=
  repeat match goal with
  | |- context [?a <? ?b] => destruct (Z.ltb_spec a b)
  | |- context [?a >? ?b] => destruct (Z.gtb_spec a b)
  end;
  try lia; try reflexivity.

(** The confirm boundary with and without the key [appealConfirmTerms]. *)
Ltac confirm_key :=
  try match goal with
  | |- context [CourtConfig.appealConfirmTerms ?c] =>
      destruct (CourtConfig.appealConfirmTerms c)
  end;
  cbn [addNum mulNum ltNum option_map].

(* ===================================================================== *)
(** ** The adjudication sub-phase resolver *)
(* ===================================================================== *)

Section AdjudicationLadder.

Variables (dispute : Dispute.t) (round : Round.t).
Variables (now draftTermEndTime : Z) (courtConfig : CourtConfig.t).

Let termDuration := CourtConfig.termDuration courtConfig.
Let commitEnd := draftTermEndTime + CourtConfig.commitTerms courtConfig * termDuration.
Let revealEnd := commitEnd + CourtConfig.revealTerms courtConfig * termDuration.
Let appealEnd := revealEnd + CourtConfig.appealTerms courtConfig * termDuration.
Let numberOfRounds := Z.of_nat (List.length (Dispute.rounds dispute)).
Let resolved := getAdjudicationPhase dispute round now draftTermEndTime courtConfig.

(** C1. The code on the deadline ladder that starts at
    [draftTermEndTime].  Before the commit boundary the resolver answers
    VotingPeriod, then before the reveal boundary RevealVote, each with that
    boundary as next transition; past both, when the number of rounds is at
    most [maxRegularAppealRounds], a round without appeal is Appealing until
    the appeal boundary and ExecuteRuling from it on.  For a round with an
    appeal the appeal-confirm boundary is computed from the key
    [appealConfirmTerms]: a configuration that has it gets ConfirmingAppeal
    until that boundary and ExecuteRuling from it on; the court
    configuration, which names the count [appealConfirmationTerms], gets a
    boundary that is [NaN], and its appealed round is ExecuteRuling at once,
    never ConfirmingAppeal. *)
Theorem adjudication_deadline_ladder :
  (now < commitEnd ->
     resolved = Adjudication.mk VotingPeriod (Some commitEnd)) /\
  (commitEnd <= now -> now < revealEnd ->
     resolved = Adjudication.mk RevealVote (Some revealEnd)) /\
  (commitEnd <= now -> revealEnd <= now ->
   numberOfRounds <= CourtConfig.maxRegularAppealRounds courtConfig ->
     (Round.appeal round = None ->
        (now < appealEnd ->
           resolved = Adjudication.mk Appealing (Some appealEnd)) /\
        (appealEnd <= now ->
           resolved = Adjudication.mk ExecuteRuling None)) /\
     (Round.appeal round <> None ->
        (forall terms,
           CourtConfig.appealConfirmTerms courtConfig = Some terms ->
           (now < appealEnd + terms * termDuration ->
              resolved = Adjudication.mk ConfirmingAppeal
                           (Some (appealEnd + terms * termDuration))) /\
           (appealEnd + terms * termDuration <= now ->
              resolved = Adjudication.mk ExecuteRuling None)) /\
        (CourtConfig.appealConfirmTerms courtConfig = None ->
           resolved = Adjudication.mk ExecuteRuling None))).
Proof.
  subst resolved appealEnd revealEnd commitEnd numberOfRounds termDuration.
  unfold getAdjudicationPhase. cbv zeta.
  repeat split; intros;
    destruct (Round.appeal round) eqn:Ha; try congruence;
    cbn [truthy negb];
    repeat match goal with
    | H : CourtConfig.appealConfirmTerms _ = _ |- _ => rewrite H; clear H
    end;
    confirm_key; ladder.
Qed.

(** C5. Once the number of rounds exceeds [maxRegularAppealRounds], every
    [now] at or past the reveal boundary resolves to ExecuteRuling, with or
    without an appeal on the round. *)
Theorem max_appeal_reached_executes_ruling :
  nonNegativeConfig courtConfig ->
  numberOfRounds > CourtConfig.maxRegularAppealRounds courtConfig ->
  draftTermEndTime
    + (CourtConfig.commitTerms courtConfig + CourtConfig.revealTerms courtConfig)
      * termDuration <= now ->
  resolved = Adjudication.mk ExecuteRuling None.
Proof.
  subst resolved numberOfRounds termDuration.
  unfold nonNegativeConfig, getAdjudicationPhase. cbv zeta.
  intros (Htd & _ & _ & Hr & _) Hmax Hnow.
  assert (0 <= CourtConfig.revealTerms courtConfig
               * CourtConfig.termDuration courtConfig) by nia.
  confirm_key; ladder.
Qed.

End AdjudicationLadder.

(* ===================================================================== *)
(** ** The current-phase resolver *)
(* ===================================================================== *)

Section Resolver.

Variable getTermStartTime : Z -> CourtConfig.t -> Z.

Local Abbreviation resolve := (getPhaseAndTransition getTermStartTime).

(** The last round is read before the state is looked at. *)
Lemma getPhaseAndTransition_no_last_round dispute courtConfig nowDate :
  index (Dispute.rounds dispute) (Dispute.lastRoundId dispute) = None ->
  resolve dispute courtConfig nowDate = Throw TypeError.
Proof.
  intros H. unfold getPhaseAndTransition. now rewrite H.
Qed.

Lemma getPhaseAndTransition_Ruled dispute courtConfig nowDate lastRound :
  index (Dispute.rounds dispute) (Dispute.lastRoundId dispute) = Some lastRound ->
  Dispute.state dispute = Ruled ->
  resolve dispute courtConfig nowDate =
    Return (Some (Current.mk ClaimRewards None (Some Null)
                    (Round.number lastRound))).
Proof.
  intros H Hs. unfold getPhaseAndTransition. now rewrite H, Hs.
Qed.

Lemma getPhaseAndTransition_Adjudicating dispute courtConfig nowDate lastRound :
  index (Dispute.rounds dispute) (Dispute.lastRoundId dispute) = Some lastRound ->
  Dispute.state dispute = Adjudicating ->
  resolve dispute courtConfig nowDate =
    let adjudication :=
      getAdjudicationPhase dispute lastRound (dayjs_unix nowDate * 1000)
        (getTermStartTime
           (Round.draftTermId lastRound + Round.delayedTerms lastRound)
           courtConfig)
        courtConfig in
    Return (Some (Current.mk (Adjudication.phase adjudication)
                    (Adjudication.nextTransition adjudication) None
                    (Round.number lastRound))).
Proof.
  intros H Hs. unfold getPhaseAndTransition. now rewrite H, Hs.
Qed.

(** The resolver looks at the clock only through its whole seconds. *)
Lemma getPhaseAndTransition_whole_seconds dispute courtConfig d1 d2 :
  dayjs_unix d1 = dayjs_unix d2 ->
  resolve dispute courtConfig d1 = resolve dispute courtConfig d2.
Proof.
  intros H. unfold getPhaseAndTransition. now rewrite H.
Qed.

(** C4, as amended.  In state Evidence the resolver cuts the time it is
    given to whole seconds, [now = floor (nowDate / 1000) * 1000], and with
    [evidenceEnd = createdAt + termDuration * evidenceTerms]: the phase is
    JuryDrafting with next transition [evidenceEnd + termDuration * 3] when
    this [now > evidenceEnd], which is so from one second past
    [evidenceEnd] on, and Evidence with next transition [evidenceEnd]
    otherwise; in particular the phase is Evidence whenever the time passed
    in is before [evidenceEnd]. *)
Theorem evidence_phase_and_transition dispute courtConfig nowDate lastRound :
  Dispute.state dispute = Evidence ->
  index (Dispute.rounds dispute) (Dispute.lastRoundId dispute) = Some lastRound ->
  let now := dayjs_unix nowDate * 1000 in
  let termDuration := CourtConfig.termDuration courtConfig in
  let evidenceEnd :=
    Dispute.createdAt dispute
    + termDuration * CourtConfig.evidenceTerms courtConfig in
  let stillEvidence :=
    Return (Some (Current.mk Evidence (Some evidenceEnd) None
                    (Round.number lastRound))) in
  (now > evidenceEnd ->
     resolve dispute courtConfig nowDate =
       Return (Some (Current.mk JuryDrafting
                       (Some (evidenceEnd + termDuration * 3)) None
                       (Round.number lastRound)))) /\
  (now <= evidenceEnd ->
     resolve dispute courtConfig nowDate = stillEvidence) /\
  (now < evidenceEnd ->
     resolve dispute courtConfig nowDate = stillEvidence) /\
  (nowDate < evidenceEnd ->
     resolve dispute courtConfig nowDate = stillEvidence) /\
  (evidenceEnd + 1000 <= nowDate ->
     resolve dispute courtConfig nowDate =
       Return (Some (Current.mk JuryDrafting
                       (Some (evidenceEnd + termDuration * 3)) None
                       (Round.number lastRound)))).
Proof.
  intros Hs Hr now termDuration evidenceEnd stillEvidence.
  pose proof (dayjs_unix_le nowDate) as Hle.
  assert (nowDate < dayjs_unix nowDate * 1000 + 1000) as Hgt.
  { unfold dayjs_unix. pose proof (Z.mul_succ_div_gt nowDate 1000). lia. }
  subst stillEvidence evidenceEnd termDuration now.
  unfold getPhaseAndTransition. rewrite Hr, Hs.
  cbn [bind defined]. phase_tests. cbv zeta.
  unfold juryDraftingTerms.
  repeat split; intros; ladder.
Qed.

(** C7. A dispute that has its last round and whose state is none of Ruled,
    Evidence, JuryDrafting and Adjudicating falls through every branch: the
    resolver returns [undefined] and raises nothing. *)
Theorem unknown_state_returns_undefined dispute courtConfig nowDate :
  Dispute.rounds dispute <> [] ->
  Dispute.lastRoundId dispute
    = Z.of_nat (List.length (Dispute.rounds dispute)) - 1 ->
  Dispute.state dispute <> Ruled ->
  Dispute.state dispute <> Evidence ->
  Dispute.state dispute <> JuryDrafting ->
  Dispute.state dispute <> Adjudicating ->
  resolve dispute courtConfig nowDate = Return None.
Proof.
  intros Hne Hid H1 H2 H3 H4.
  destruct (lastRound_defined dispute Hne Hid) as [lastRound Hr].
  unfold getPhaseAndTransition. rewrite Hr. cbn [bind defined].
  apply Phase_eqb_neq in H1, H2, H3, H4.
  now rewrite H1, H2, H3, H4.
Qed.

(** Every phase the resolver answers is in the ordered sequence. *)
Lemma getPhaseAndTransition_ranked dispute courtConfig nowDate current :
  resolve dispute courtConfig nowDate = Return (Some current) ->
  exists k, phaseRank (Current.phase current) = Some k.
Proof.
  unfold getPhaseAndTransition.
  destruct (index _ _) as [lastRound|]; cbn [bind defined]; [|discriminate].
  destruct (Dispute.state dispute); phase_tests;
    try discriminate; cbv zeta.
  - destruct (_ >? _); intros [= <-]; cbn; eauto.
  - intros [= <-]; cbn; eauto.
  - unfold getAdjudicationPhase; cbv zeta.
    destruct (Round.appeal lastRound); cbn [truthy negb];
      repeat match goal with
      | |- context [if ?c then _ else _] => destruct c
      end; intros [= <-]; cbn; eauto.
  - intros [= <-]; cbn; eauto.
Qed.

(** C8. For a fixed dispute and configuration the resolved phase never
    moves back in the ordered sequence as the time passed in grows; whether
    the call returns, returns [undefined] or throws does not depend on the
    time. *)
Theorem phase_monotone_in_now dispute courtConfig now1 now2 :
  now1 <= now2 ->
  neverEarlier (resolve dispute courtConfig now1)
               (resolve dispute courtConfig now2).
Proof.
  intros Hle. apply dayjs_unix_mono in Hle.
  unfold getPhaseAndTransition.
  generalize dependent (dayjs_unix now1 * 1000).
  generalize dependent (dayjs_unix now2 * 1000).
  intros t2 t1 Hle.
  destruct (index _ _) as [lastRound|]; cbn [bind defined neverEarlier];
    [|reflexivity].
  destruct (Dispute.state dispute); phase_tests; cbv zeta;
    try exact I.
  - ladder; cbn; do 2 eexists; repeat split; lia.
  - cbn; do 2 eexists; repeat split; lia.
  - unfold getAdjudicationPhase; cbv zeta.
    destruct (Round.appeal lastRound); cbn [truthy negb];
      confirm_key; ladder; cbn; do 2 eexists; repeat split; lia.
  - cbn; do 2 eexists; repeat split; lia.
Qed.

(** C10. With no rounds the resolver throws on the read of the last round,
    whatever the state, and so does the timeline builder, which calls it
    first: the early return of the builder for an empty [rounds] is never
    taken. *)
Theorem empty_rounds_throw dispute courtConfig clock :
  Dispute.rounds dispute = [] ->
  resolve dispute courtConfig clock = Throw TypeError /\
  getDisputeTimeLine getTermStartTime dispute courtConfig clock
    = Throw TypeError.
Proof.
  intros Hnil.
  assert (resolve dispute courtConfig clock = Throw TypeError) as H.
  { apply getPhaseAndTransition_no_last_round. rewrite Hnil. apply index_nil. }
  split; [exact H|].
  unfold getDisputeTimeLine. now rewrite H.
Qed.

End Resolver.

(* ===================================================================== *)
(** ** Ties at the stage boundaries *)
(* ===================================================================== *)

Section Ties.

Variable getTermStartTime : Z -> CourtConfig.t -> Z.
Variables (dispute : Dispute.t) (round : Round.t).
Variables (now draftTermEndTime : Z) (courtConfig : CourtConfig.t).

Let termDuration := CourtConfig.termDuration courtConfig.
Let commitEnd := draftTermEndTime + CourtConfig.commitTerms courtConfig * termDuration.
Let revealEnd := commitEnd + CourtConfig.revealTerms courtConfig * termDuration.
Let appealEnd := revealEnd + CourtConfig.appealTerms courtConfig * termDuration.
Let resolved :=
  Adjudication.phase
    (getAdjudicationPhase dispute round now draftTermEndTime courtConfig).

(** C2, as amended.  At a commit, reveal, appeal or appeal-confirm boundary
    the comparison is [now < boundary], so a [now] equal to the boundary is
    past it: the phase answered is a later one than the stage that ended
    (RevealVote at the commit boundary when the reveal stage has a length,
    ExecuteRuling at the appeal boundary of a round without appeal and at
    the appeal-confirm boundary, which a configuration with the key
    [appealConfirmTerms] has).  The end of evidence submission is tested
    with [now > evidenceEnd]: there a [now] equal to the boundary is still
    in Evidence. *)
Theorem boundary_ties :
  nonNegativeConfig courtConfig ->
  (now = commitEnd ->
     laterThan VotingPeriod resolved /\
     (0 < CourtConfig.revealTerms courtConfig * termDuration ->
        resolved = RevealVote)) /\
  (now = revealEnd -> laterThan RevealVote resolved) /\
  (now = appealEnd ->
     laterThan Appealing resolved /\
     (Round.appeal round = None -> resolved = ExecuteRuling)) /\
  (forall terms,
     CourtConfig.appealConfirmTerms courtConfig = Some terms ->
     now = appealEnd + terms * termDuration -> resolved = ExecuteRuling) /\
  (forall (evidenceDispute : Dispute.t) (nowDate : Z) (lastRound : Round.t),
     Dispute.state evidenceDispute = Evidence ->
     index (Dispute.rounds evidenceDispute) (Dispute.lastRoundId evidenceDispute)
       = Some lastRound ->
     dayjs_unix nowDate * 1000
       = Dispute.createdAt evidenceDispute
         + termDuration * CourtConfig.evidenceTerms courtConfig ->
     getPhaseAndTransition getTermStartTime evidenceDispute courtConfig nowDate
       = Return (Some (Current.mk Evidence
                         (Some (Dispute.createdAt evidenceDispute
                                + termDuration
                                  * CourtConfig.evidenceTerms courtConfig))
                         None (Round.number lastRound)))).
Proof.
  subst resolved appealEnd revealEnd commitEnd termDuration.
  unfold nonNegativeConfig, laterThan, getAdjudicationPhase. cbv zeta.
  assert (forall a b, 0 <= a -> 0 <= b -> 0 <= a * b) as Hpos by (intros; nia).
  destruct (CourtConfig.appealConfirmTerms courtConfig) as [confirmTerms|];
    cbn [addNum mulNum ltNum option_map];
    intros (Htd & _ & Hc & Hr & Ha & Hac & _);
    pose proof (Hpos _ _ Hc Htd); pose proof (Hpos _ _ Hr Htd);
    pose proof (Hpos _ _ Ha Htd);
    try pose proof (Hpos _ _ Hac Htd);
    repeat match goal with |- _ /\ _ => split end;
    try (intros terms [= <-]);
    try (intros ->;
         try (split; [|intros Hlen]);
         destruct (Round.appeal round); cbn [truthy negb];
         try congruence; ladder;
         cbn; do 2 eexists; repeat split; lia);
    try (intros d nowDate lastRound Hs Hl Hnow;
         unfold getPhaseAndTransition; rewrite Hl, Hs, Hnow;
         cbn [bind defined]; phase_tests; cbv zeta;
         now rewrite Z.gtb_ltb, Z.ltb_irrefl).
Qed.

End Ties.

(* ===================================================================== *)
(** ** The timeline builder *)
(* ===================================================================== *)

(** The truncation of a round's ladder. *)
Lemma slice_from_start (A : Type) (arr : list A) (n : nat) :
  (n <= List.length arr)%nat ->
  slice arr 0 (Z.of_nat n) = firstn n arr.
Proof.
  intros Hn. unfold slice, clampIndex.
  destruct (Z.ltb_spec 0 0); [lia|].
  destruct (Z.ltb_spec (Z.of_nat n) 0); [lia|].
  rewrite (Z.min_l 0) by lia. rewrite Z.min_l by lia.
  cbn [Z.to_nat skipn]. now rewrite Z.sub_0_r, Nat2Z.id.
Qed.

Lemma findIndexFrom_first (A : Type) (p : A -> bool) (arr : list A) :
  forall (i : nat) (start : Z) (x : A),
  nth_error arr i = Some x -> p x = true ->
  (forall j y, (j < i)%nat -> nth_error arr j = Some y -> p y = false) ->
  findIndexFrom p arr start = start + Z.of_nat i.
Proof.
  induction arr as [|a rest IH]; intros i start x Hi Hp Hbefore.
  - now destruct i.
  - destruct i as [|i]; cbn [nth_error findIndexFrom] in *.
    + injection Hi as ->. rewrite Hp. lia.
    + rewrite (Hbefore 0%nat a) by (lia || reflexivity).
      rewrite (IH i (start + 1) x Hi Hp); [lia|].
      intros j y Hj Hy. apply (Hbefore (S j) y); [lia|exact Hy].
Qed.

Lemma findIndexFrom_none (A : Type) (p : A -> bool) (arr : list A) (start : Z) :
  (forall y, In y arr -> p y = false) ->
  findIndexFrom p arr start = -1.
Proof.
  revert start. induction arr as [|a rest IH]; intros start H; [reflexivity|].
  cbn [findIndexFrom]. rewrite (H a) by now left.
  apply IH. intros y Hy. apply H. now right.
Qed.

Section TimeLine.

Variable getTermStartTime : Z -> CourtConfig.t -> Z.
Variable courtConfig : CourtConfig.t.

Local Abbreviation ladderOf :=
  (roundPhasesAndTime getTermStartTime courtConfig).
Local Abbreviation truncated :=
  (getRoundPhasesAndTime getTermStartTime courtConfig).

(** The five stages of a round, in order. *)
Lemma roundPhasesAndTime_phases round current :
  map Entry.phase (ladderOf round current)
    = [JuryDrafting; VotingPeriod; RevealVote; AppealRuling; ConfirmAppeal].
Proof. reflexivity. Qed.

Lemma roundPhasesAndTime_dated round current :
  Forall (fun entry => Entry.endTime entry <> None /\
                       Entry.roundId entry = Some (Round.number round))
         (ladderOf round current).
Proof. repeat constructor; discriminate. Qed.

Lemma getRoundPhasesAndTime_earlier_round round current :
  Round.number round < Current.roundId current ->
  truncated round current = ladderOf round current.
Proof.
  intros H. unfold getRoundPhasesAndTime. cbv zeta.
  now destruct (Z.ltb_spec (Round.number round) (Current.roundId current));
    [|lia].
Qed.

Lemma getRoundPhasesAndTime_current_round round current i entry :
  Round.number round = Current.roundId current ->
  nth_error (ladderOf round current) i = Some entry ->
  Entry.phase entry = Current.phase current ->
  truncated round current = firstn (S i) (ladderOf round current).
Proof.
  intros Hid Hi Hphase. unfold getRoundPhasesAndTime. cbv zeta.
  rewrite Hid, Z.ltb_irrefl. unfold findIndex.
  assert (S i <= List.length (ladderOf round current))%nat as Hlen.
  { apply Nat.le_succ_l, nth_error_Some. congruence. }
  rewrite (findIndexFrom_first _ _ _ i 0 entry Hi).
  - replace (0 + Z.of_nat i + 1) with (Z.of_nat (S i)) by lia.
    now apply slice_from_start.
  - now apply Phase_eqb_eq.
  - intros j y Hj Hy. apply Phase_eqb_neq. rewrite <- Hphase.
    clear Hphase Hlen.
    assert (nth_error (map Entry.phase (ladderOf round current)) i
            = Some (Entry.phase entry)) as Hi'
      by now rewrite nth_error_map, Hi.
    assert (nth_error (map Entry.phase (ladderOf round current)) j
            = Some (Entry.phase y)) as Hj'
      by now rewrite nth_error_map, Hy.
    rewrite roundPhasesAndTime_phases in Hi', Hj'.
    intros Heq. rewrite Heq in Hj'.
    assert (NoDup [JuryDrafting; VotingPeriod; RevealVote; AppealRuling;
                   ConfirmAppeal]) as Hnd.
    { repeat constructor; cbn; intuition discriminate. }
    pose proof (proj1 (NoDup_nth_error _) Hnd j i) as Hinj.
    assert (j = i); [|lia].
    apply Hinj; [|congruence].
    apply nth_error_Some. congruence.
Qed.

(** A current phase that is no stage of the ladder leaves nothing of the
    current round. *)
Lemma getRoundPhasesAndTime_no_stage round current :
  Round.number round = Current.roundId current ->
  ~ In (Current.phase current)
       [JuryDrafting; VotingPeriod; RevealVote; AppealRuling; ConfirmAppeal] ->
  truncated round current = [].
Proof.
  intros Hid Hno. unfold getRoundPhasesAndTime. cbv zeta.
  rewrite Hid, Z.ltb_irrefl. unfold findIndex.
  rewrite findIndexFrom_none; [reflexivity|].
  intros y Hy. apply Phase_eqb_neq. intros Heq. apply Hno.
  rewrite <- Heq, <- (roundPhasesAndTime_phases round current).
  now apply in_map.
Qed.

(** What the builder returns whenever the resolver answers: the two
    dispute-level entries and the rounds' ladders, nothing after them. *)
Lemma getDisputeTimeLine_returns dispute clock current :
  getPhaseAndTransition getTermStartTime dispute courtConfig clock
    = Return (Some current) ->
  getDisputeTimeLine getTermStartTime dispute courtConfig clock
    = Return
        [ Item (Entry.mk Created (Some (Dispute.createdAt dispute)) None None);
          Item (Entry.mk Evidence
                  (Some (Dispute.createdAt dispute
                         + CourtConfig.termDuration courtConfig
                           * CourtConfig.evidenceTerms courtConfig))
                  (Some (Phase_eqb (Current.phase current) Evidence))
                  None);
          RoundsItem (map (fun round => truncated round current)
                          (Dispute.rounds dispute)) ].
Proof.
  intros H. unfold getDisputeTimeLine. rewrite H. cbn [bind defined]. cbv zeta.
  destruct (Dispute.rounds dispute) as [|r rs] eqn:Hr.
  - rewrite getPhaseAndTransition_no_last_round in H; [discriminate|].
    rewrite Hr. apply index_nil.
  - reflexivity.
Qed.

(** A timeline that is returned always has these three items: the return
    for an empty [rounds], which would give two, is not reached. *)
Lemma getDisputeTimeLine_length dispute clock timeLine :
  getDisputeTimeLine getTermStartTime dispute courtConfig clock
    = Return timeLine ->
  List.length timeLine = 3%nat.
Proof.
  intros Htl.
  destruct (getPhaseAndTransition getTermStartTime dispute courtConfig clock)
    as [[current|]|e] eqn:H.
  - rewrite (getDisputeTimeLine_returns _ _ _ H) in Htl.
    now injection Htl as <-.
  - unfold getDisputeTimeLine in Htl. now rewrite H in Htl.
  - unfold getDisputeTimeLine in Htl. now rewrite H in Htl.
Qed.

End TimeLine.

Section TimeLineProperties.

Variable getTermStartTime : Z -> CourtConfig.t -> Z.
Variables (dispute : Dispute.t) (courtConfig : CourtConfig.t).

Local Abbreviation resolve := (getPhaseAndTransition getTermStartTime).
Local Abbreviation build := (getDisputeTimeLine getTermStartTime).
Local Abbreviation ladderOf :=
  (roundPhasesAndTime getTermStartTime courtConfig).

(** C3. The code at a current phase ExecuteRuling or ClaimRewards: the
    builder compares the phase constant with a member read off the current
    phase, which is [undefined], so the test never holds; the timeline
    returned has its three leading items only and no dispute-level entry of
    it carries the current phase. *)
Theorem trailing_phase_never_appended clock current :
  resolve dispute courtConfig clock = Return (Some current) ->
  Current.phase current = ExecuteRuling \/
  Current.phase current = ClaimRewards ->
  exists timeLine,
    build dispute courtConfig clock = Return timeLine /\
    List.length timeLine = 3%nat /\
    forall entry, In (Item entry) timeLine ->
      Entry.phase entry <> Current.phase current.
Proof.
  intros H Hphase. eexists. split.
  - apply getDisputeTimeLine_returns, H.
  - split; [reflexivity|].
    intros entry [Hin|[Hin|[Hin|[]]]]; try discriminate;
      injection Hin as <-; cbn [Entry.phase];
      destruct Hphase as [-> | ->]; discriminate.
Qed.

(** The ladder of the code is the ladder of stages and end times. *)
Lemma roundPhasesAndTime_stages round current :
  ladderOf round current
  = map (stageEntry round current)
        (stageEndTimes
           (getTermStartTime
              (Round.draftTermId round + Round.delayedTerms round) courtConfig)
           courtConfig round).
Proof.
  unfold roundPhasesAndTime, stageEndTimes, stageEntry, juryDraftingTerms.
  cbv zeta. cbn [map fst snd].
  repeat (f_equal; try lia).
Qed.

(** C6. The code on the ladders of the timeline.  Each round before the
    current one (its number below the current [roundId]) contributes its
    whole ladder JuryDrafting, VotingPeriod, RevealVote, AppealRuling,
    ConfirmAppeal with these end times, and the round whose number is the
    current [roundId] contributes the ladder cut right after the entry whose
    phase is the current phase.  When no entry has the current phase, as in
    ExecuteRuling and ClaimRewards, where every stage of the round has
    elapsed, the round contributes no entry: the elapsed stages are dropped
    with the future ones. *)
Theorem round_ladders_in_timeline clock current :
  resolve dispute courtConfig clock = Return (Some current) ->
  exists created evidence ladders,
    build dispute courtConfig clock
      = Return [Item created; Item evidence; RoundsItem ladders] /\
    Forall2
      (fun round ladder =>
         let stages :=
           stageEndTimes
             (getTermStartTime
                (Round.draftTermId round + Round.delayedTerms round)
                courtConfig)
             courtConfig round in
         (Round.number round < Current.roundId current ->
            ladder = map (stageEntry round current) stages) /\
         (Round.number round = Current.roundId current ->
            (forall i endTime,
               nth_error stages i = Some (Current.phase current, endTime) ->
               ladder = map (stageEntry round current) (firstn (S i) stages)) /\
            (~ In (Current.phase current) (map fst stages) -> ladder = [])))
      (Dispute.rounds dispute) ladders.
Proof.
  intros H. do 3 eexists. split.
  - apply getDisputeTimeLine_returns, H.
  - induction (Dispute.rounds dispute) as [|round rest IH];
      cbn [map]; constructor; [|exact IH].
    cbv zeta. split; [|split].
    + intros Hlt.
      rewrite getRoundPhasesAndTime_earlier_round by exact Hlt.
      apply roundPhasesAndTime_stages.
    + intros i endTime Hi.
      rewrite <- firstn_map, <- roundPhasesAndTime_stages.
      apply getRoundPhasesAndTime_current_round
        with (entry := stageEntry round current
                         (Current.phase current, endTime));
        [assumption| |reflexivity].
      rewrite roundPhasesAndTime_stages.
      now apply map_nth_error.
    + intros Hno. apply getRoundPhasesAndTime_no_stage; assumption.
Qed.

(** C9, as amended.  The builder reads the clock once and hands the reading
    to the resolver; the timeline depends on the reading through its whole
    seconds only, so two runs on the same dispute and configuration within
    the same second return the same timeline. *)
Theorem timeline_same_within_a_second clock1 clock2 :
  dayjs_unix clock1 = dayjs_unix clock2 ->
  build dispute courtConfig clock1 = build dispute courtConfig clock2.
Proof.
  intros H. unfold getDisputeTimeLine.
  now rewrite (getPhaseAndTransition_whole_seconds _ _ _ clock1 clock2 H).
Qed.

End TimeLineProperties.

(* ===================================================================== *)
(** ** The properties at concrete disputes *)
(* ===================================================================== *)

(** In the sample court the draft term 100 starts at 1 000 000 ms; the
    commit, reveal, appeal and appeal-confirm boundaries of the round are
    1 020 000, 1 040 000, 1 060 000 and 1 080 000, and evidence submission
    ends at 20 000. *)

(** The adjudicating round of the specification's example: draft term
    ending at 1000, terms of 10, two terms per stage, no appeal. *)
Example adjudication_example :
  let config := CourtConfig.mk 10 2 2 2 2 None 2 4 in
  let dispute := Dispute.mk Adjudicating 0 [Sample.round0 None] 0 in
  let at_ now := getAdjudicationPhase dispute (Sample.round0 None) now 1000 config in
  at_ 1015 = Adjudication.mk VotingPeriod (Some 1020) /\
  at_ 1025 = Adjudication.mk RevealVote (Some 1040) /\
  at_ 1045 = Adjudication.mk Appealing (Some 1060) /\
  at_ 1065 = Adjudication.mk ExecuteRuling None.
Proof. repeat split. Qed.

(** With the key [appealConfirmTerms] in the configuration the appealed
    round is in ConfirmingAppeal until 1 080 000. *)
Example confirming_appeal_with_the_key :
  getAdjudicationPhase (Sample.dispute Adjudicating (Some AppealRecord))
    (Sample.round0 (Some AppealRecord)) 1045000 1000000 Sample.bothKeysConfig
  = Adjudication.mk ConfirmingAppeal (Some 1080000).
Proof. reflexivity. Qed.

(** The resolver works on whole seconds: half a second after the end of
    evidence submission the phase is still Evidence. *)
Example evidence_within_the_boundary_second :
  getPhaseAndTransition Sample.termStart (Sample.dispute Evidence None)
    Sample.config 20500
  = Return (Some (Current.mk Evidence (Some 20000) None 0)).
Proof. reflexivity. Qed.

(** The appealed round of the sample court, whose configuration has no
    key [appealConfirmTerms], read after its reveal boundary and well before
    the end of appeal confirmation at 1 080 000: the ruling can be executed
    already. *)
Lemma adjudication_deadline_ladder_witness :
  CourtConfig.appealConfirmTerms Sample.config = None /\
  1040000 <= 1045000 /\
  getAdjudicationPhase (Sample.dispute Adjudicating (Some AppealRecord))
    (Sample.round0 (Some AppealRecord)) 1045000 1000000 Sample.config
  = Adjudication.mk ExecuteRuling None.
Proof.
  split; [reflexivity|]. split; [lia|].
  apply (adjudication_deadline_ladder
           (Sample.dispute Adjudicating (Some AppealRecord))
           (Sample.round0 (Some AppealRecord))
           1045000 1000000 Sample.config);
    cbn; solve [lia | discriminate | reflexivity].
Defined.

Lemma max_appeal_reached_executes_ruling_witness :
  getAdjudicationPhase (Sample.dispute Adjudicating (Some AppealRecord))
    (Sample.round0 (Some AppealRecord)) 1040000 1000000 Sample.cappedConfig
  = Adjudication.mk ExecuteRuling None.
Proof.
  apply (max_appeal_reached_executes_ruling
           (Sample.dispute Adjudicating (Some AppealRecord))
           (Sample.round0 (Some AppealRecord))
           1040000 1000000 Sample.cappedConfig).
  - unfold nonNegativeConfig; cbn; lia.
  - cbn; lia.
  - cbn; lia.
Defined.

Lemma boundary_ties_witness :
  Adjudication.phase
    (getAdjudicationPhase (Sample.dispute Adjudicating None)
       (Sample.round0 None) 1020000 1000000 Sample.config)
  = RevealVote.
Proof.
  apply (boundary_ties Sample.termStart
           (Sample.dispute Adjudicating None) (Sample.round0 None)
           1020000 1000000 Sample.config).
  - unfold nonNegativeConfig; cbn; lia.
  - reflexivity.
  - cbn; lia.
Defined.

(** C2, as stated, fails at the end of evidence submission: with [now]
    equal to that boundary the phase is still Evidence, not JuryDrafting. *)
Lemma evidence_boundary_still_evidence :
  dayjs_unix 20000 * 1000
    = Dispute.createdAt (Sample.dispute Evidence None)
      + CourtConfig.termDuration Sample.config
        * CourtConfig.evidenceTerms Sample.config /\
  exists current,
    getPhaseAndTransition Sample.termStart (Sample.dispute Evidence None)
      Sample.config 20000 = Return (Some current) /\
    Current.phase current = Evidence /\
    Current.phase current <> JuryDrafting.
Proof.
  split; [reflexivity|].
  eexists. split; [reflexivity|]. split; [reflexivity|discriminate].
Qed.

(** C4, as stated on the time the caller passes, fails: a time after the
    end of evidence submission, within the second of that end, is still in
    Evidence. *)
Lemma evidence_after_the_end_still_evidence :
  250 > Dispute.createdAt Sample.inEvidence
        + CourtConfig.termDuration Sample.shortTermsConfig
          * CourtConfig.evidenceTerms Sample.shortTermsConfig /\
  exists current,
    getPhaseAndTransition Sample.termStart Sample.inEvidence
      Sample.shortTermsConfig 250 = Return (Some current) /\
    Current.phase current = Evidence /\
    Current.nextTransition current = Some 200 /\
    Current.phase current <> JuryDrafting.
Proof.
  split; [cbn; lia|].
  eexists. split; [reflexivity|].
  split; [reflexivity|]. split; [reflexivity|discriminate].
Qed.

Lemma evidence_phase_and_transition_witness :
  getPhaseAndTransition Sample.termStart (Sample.dispute Evidence None)
    Sample.config 25000
  = Return (Some (Current.mk JuryDrafting (Some 50000) None 0)).
Proof.
  apply (evidence_phase_and_transition Sample.termStart
           (Sample.dispute Evidence None) Sample.config 25000
           (Sample.round0 None)).
  - reflexivity.
  - reflexivity.
  - cbn. lia.
Defined.

Lemma unknown_state_returns_undefined_witness :
  getPhaseAndTransition Sample.termStart (Sample.dispute Created None)
    Sample.config 25000
  = Return None.
Proof.
  apply (unknown_state_returns_undefined Sample.termStart
           (Sample.dispute Created None) Sample.config 25000);
    solve [discriminate | reflexivity].
Defined.

Lemma phase_monotone_in_now_witness :
  neverEarlier
    (getPhaseAndTransition Sample.termStart
       (Sample.dispute Adjudicating None) Sample.config 1010000)
    (getPhaseAndTransition Sample.termStart
       (Sample.dispute Adjudicating None) Sample.config 1070000).
Proof.
  apply (phase_monotone_in_now Sample.termStart
           (Sample.dispute Adjudicating None) Sample.config 1010000 1070000).
  lia.
Defined.

Lemma empty_rounds_throw_witness :
  getPhaseAndTransition Sample.termStart (Sample.noRounds Evidence)
    Sample.config 25000 = Throw TypeError /\
  getDisputeTimeLine Sample.termStart (Sample.noRounds Evidence)
    Sample.config 25000 = Throw TypeError.
Proof.
  apply (empty_rounds_throw Sample.termStart (Sample.noRounds Evidence)
           Sample.config 25000).
  reflexivity.
Defined.

(** The dispute on which the trailing entry is missing: one round, not
    appealed, read after its appeal boundary. *)
Lemma trailing_phase_never_appended_witness :
  getPhaseAndTransition Sample.termStart (Sample.dispute Adjudicating None)
    Sample.config 1070000
  = Return (Some (Current.mk ExecuteRuling None None 0)) /\
  exists timeLine,
    getDisputeTimeLine Sample.termStart (Sample.dispute Adjudicating None)
      Sample.config 1070000 = Return timeLine /\
    List.length timeLine = 3%nat /\
    forall entry, In (Item entry) timeLine -> Entry.phase entry <> ExecuteRuling.
Proof.
  split; [reflexivity|].
  apply (trailing_phase_never_appended Sample.termStart
           (Sample.dispute Adjudicating None) Sample.config 1070000
           (Current.mk ExecuteRuling None None 0)).
  - reflexivity.
  - left; reflexivity.
Defined.

(** The appealed dispute read after the appeal boundary of its second
    round, 1 160 000: the ruling can be executed, the first round is listed
    whole and the second not at all. *)
Lemma round_ladders_in_timeline_witness :
  exists created evidence ladder0 ladder1,
    getDisputeTimeLine Sample.termStart (Appealed.dispute Adjudicating)
      Sample.config 1170000
      = Return [Item created; Item evidence; RoundsItem [ladder0; ladder1]] /\
    map (fun entry => (Entry.phase entry, Entry.endTime entry)) ladder0
      = [ (JuryDrafting, Some 60000); (VotingPeriod, Some 1020000);
          (RevealVote, Some 1040000); (AppealRuling, Some 1060000);
          (ConfirmAppeal, Some 1080000) ] /\
    ladder1 = [].
Proof.
  destruct (round_ladders_in_timeline Sample.termStart
              (Appealed.dispute Adjudicating) Sample.config 1170000
              (Current.mk ExecuteRuling None None 1) eq_refl)
    as (created & evidence & ladders & Hbuild & Hladders).
  cbn [Appealed.dispute Dispute.rounds] in Hladders.
  inversion Hladders as [|r0 ladder0 rs ls [Hfull _] Hrest]; subst.
  inversion Hrest as [|r1 ladder1 rs' ls' [_ Hcurrent] Hnil]; subst.
  inversion Hnil; subst.
  exists created, evidence, ladder0, ladder1.
  split; [exact Hbuild|]. split.
  - rewrite Hfull by (cbn; lia). reflexivity.
  - apply Hcurrent; [reflexivity|].
    cbn. intros H. decompose [or] H; (discriminate || contradiction).
Defined.

(** C9, as stated, fails: the same dispute and configuration give a
    different timeline when the clock read inside the builder differs. *)
Lemma timeline_differs_with_clock :
  getDisputeTimeLine Sample.termStart (Sample.dispute Adjudicating None)
    Sample.config 1010000
  <> getDisputeTimeLine Sample.termStart (Sample.dispute Adjudicating None)
       Sample.config 1030000.
Proof. vm_compute. discriminate. Qed.

Lemma timeline_same_within_a_second_witness :
  getDisputeTimeLine Sample.termStart (Sample.dispute Adjudicating None)
    Sample.config 1019001
  = getDisputeTimeLine Sample.termStart (Sample.dispute Adjudicating None)
      Sample.config 1019999.
Proof.
  apply (timeline_same_within_a_second Sample.termStart
           (Sample.dispute Adjudicating None) Sample.config 1019001 1019999).
  reflexivity.
Defined.

(* ===================================================================== *)
(** ** Further properties of the resolver *)
(* ===================================================================== *)

Section ResolverOutcome.

Variable getTermStartTime : Z -> CourtConfig.t -> Z.
Variables (dispute : Dispute.t) (courtConfig : CourtConfig.t) (nowDate : Z).

Local Abbreviation lastRoundRead :=
  (index (Dispute.rounds dispute) (Dispute.lastRoundId dispute)).
Local Abbreviation knownState :=
  (Dispute.state dispute = Ruled \/ Dispute.state dispute = Evidence \/
   Dispute.state dispute = JuryDrafting \/ Dispute.state dispute = Adjudicating).

(** X1. The three outcomes of the resolver are decided by the dispute
    alone: it throws exactly when [rounds[lastRoundId]] is [undefined], it
    returns [undefined] exactly when that round exists and the state is none
    of the four it knows, and it returns a result exactly when the round
    exists and the state is one of the four. *)
Theorem resolver_outcome_by_dispute :
  (getPhaseAndTransition getTermStartTime dispute courtConfig nowDate
     = Throw TypeError <-> lastRoundRead = None) /\
  (getPhaseAndTransition getTermStartTime dispute courtConfig nowDate
     = Return None <-> lastRoundRead <> None /\ ~ knownState) /\
  ((exists current,
      getPhaseAndTransition getTermStartTime dispute courtConfig nowDate
        = Return (Some current))
     <-> lastRoundRead <> None /\ knownState).
Proof.
  unfold getPhaseAndTransition.
  destruct (index _ _) as [lastRound|]; cbn [bind defined].
  - destruct (Dispute.state dispute) eqn:Hs; phase_tests; cbv zeta;
      repeat match goal with
      | |- context [if ?c then _ else _] => destruct c
      end;
      (split; [|split]); split;
      try discriminate; try (intros [? ?]; discriminate);
      try (intros [_ H]; exfalso; apply H; tauto);
      try (intros [_ H]; decompose [or] H; discriminate);
      try (intros _; split; [discriminate|tauto]);
      try (intros _; split; [discriminate|]; intros H;
           decompose [or] H; discriminate);
      try (intros _; eexists; reflexivity);
      try (intros [H _]; congruence).
  - (split; [|split]); split; try discriminate; try reflexivity;
      try (intros [? ?]; discriminate); intros [H _]; congruence.
Qed.

(** X2. Every result carries as [roundId] the number of the round read at
    [rounds[lastRoundId]]. *)
Theorem result_round_is_last_round current :
  getPhaseAndTransition getTermStartTime dispute courtConfig nowDate
    = Return (Some current) ->
  exists lastRound,
    lastRoundRead = Some lastRound /\
    Current.roundId current = Round.number lastRound.
Proof.
  unfold getPhaseAndTransition.
  destruct (index _ _) as [lastRound|]; cbn [bind defined]; [|discriminate].
  intros H. exists lastRound. split; [reflexivity|]. revert H.
  destruct (Dispute.state dispute); phase_tests; cbv zeta;
    repeat match goal with
    | |- context [if ?c then _ else _] => destruct c
    end;
    try discriminate; now intros [= <-].
Qed.

(** X3. ClaimRewards is answered for ruled disputes and for no other: the
    phase is ClaimRewards exactly when the state is Ruled, and exactly then
    the result has a [ruling], which is [null]. *)
Theorem claim_rewards_iff_ruled current :
  getPhaseAndTransition getTermStartTime dispute courtConfig nowDate
    = Return (Some current) ->
  (Current.phase current = ClaimRewards <-> Dispute.state dispute = Ruled) /\
  (Current.ruling current = Some Null <-> Dispute.state dispute = Ruled) /\
  (Current.ruling current = None <-> Dispute.state dispute <> Ruled).
Proof.
  unfold getPhaseAndTransition.
  destruct (index _ _) as [lastRound|]; cbn [bind defined]; [|discriminate].
  destruct (Dispute.state dispute); phase_tests; cbv zeta; try discriminate.
  - destruct (_ >? _); intros [= <-]; cbn;
      repeat split; (discriminate || congruence).
  - intros [= <-]; cbn; repeat split; (discriminate || congruence).
  - unfold getAdjudicationPhase; cbv zeta.
    destruct (Round.appeal lastRound); cbn [truthy negb]; confirm_key;
      repeat match goal with
      | |- context [if ?c then _ else _] => destruct c
      end; intros [= <-]; cbn; repeat split; (discriminate || congruence).
  - intros [= <-]; cbn; repeat split; (discriminate || congruence).
Qed.

(** X4. A result has no [nextTransition] exactly when its phase is
    ExecuteRuling or ClaimRewards; every other phase comes with one. *)
Theorem no_transition_iff_terminal current :
  getPhaseAndTransition getTermStartTime dispute courtConfig nowDate
    = Return (Some current) ->
  (Current.nextTransition current = None
     <-> Current.phase current = ExecuteRuling \/
         Current.phase current = ClaimRewards).
Proof.
  unfold getPhaseAndTransition.
  destruct (index _ _) as [lastRound|]; cbn [bind defined]; [|discriminate].
  destruct (Dispute.state dispute); phase_tests; cbv zeta; try discriminate.
  - destruct (_ >? _); intros [= <-]; cbn;
      (split; [discriminate | intros [H|H]; discriminate]).
  - intros [= <-]; cbn; split; [discriminate | intros [H|H]; discriminate].
  - unfold getAdjudicationPhase; cbv zeta.
    destruct (Round.appeal lastRound); cbn [truthy negb]; confirm_key;
      repeat match goal with
      | |- context [if ?c then _ else _] => destruct c
      end; intros [= <-]; cbn;
      (split; [try discriminate; tauto
              | try tauto; intros [H|H]; discriminate]).
  - intros [= <-]; cbn. tauto.
Qed.

End ResolverOutcome.

Section AdjudicationFacts.

Variables (dispute : Dispute.t) (round : Round.t).
Variables (now draftTermEndTime : Z) (courtConfig : CourtConfig.t).


(** X5. A countdown of the adjudication resolver never points back: a
    [nextTransition], when there is one, is strictly after [now]; and there
    is none exactly when the phase is ExecuteRuling. *)
Theorem adjudication_transition_ahead :
  (forall t, Adjudication.nextTransition
     (getAdjudicationPhase dispute round now draftTermEndTime courtConfig) = Some t -> now < t) /\
  (Adjudication.nextTransition
     (getAdjudicationPhase dispute round now draftTermEndTime courtConfig) = None
     <-> Adjudication.phase
     (getAdjudicationPhase dispute round now draftTermEndTime courtConfig) = ExecuteRuling).
Proof.
  unfold getAdjudicationPhase. cbv zeta.
  destruct (Round.appeal round); cbn [truthy negb]; confirm_key;
    repeat match goal with
    | |- context [?a <? ?b] => destruct (Z.ltb_spec a b)
    | |- context [?a >? ?b] => destruct (Z.gtb_spec a b)
    end; cbn;
    (split; [intros t [= <-] || intros t [=]; try assumption
            | split; (reflexivity || discriminate)]).
Qed.

(** X6. The two appeal phases exclude each other by the round's appeal:
    Appealing is answered only for a round without appeal, ConfirmingAppeal
    only for a round with one, and neither once the number of rounds exceeds
    [maxRegularAppealRounds]; the resolver answers no phase besides
    VotingPeriod, RevealVote, these two and ExecuteRuling. *)
Theorem appeal_phases_follow_the_appeal :
  (Adjudication.phase
     (getAdjudicationPhase dispute round now draftTermEndTime courtConfig) = Appealing ->
     Round.appeal round = None /\
     Z.of_nat (List.length (Dispute.rounds dispute))
       <= CourtConfig.maxRegularAppealRounds courtConfig) /\
  (Adjudication.phase
     (getAdjudicationPhase dispute round now draftTermEndTime courtConfig) = ConfirmingAppeal ->
     Round.appeal round <> None /\
     Z.of_nat (List.length (Dispute.rounds dispute))
       <= CourtConfig.maxRegularAppealRounds courtConfig) /\
  In (Adjudication.phase
     (getAdjudicationPhase dispute round now draftTermEndTime courtConfig))
     [VotingPeriod; RevealVote; Appealing; ConfirmingAppeal; ExecuteRuling].
Proof.
  unfold getAdjudicationPhase. cbv zeta.
  destruct (Round.appeal round); cbn [truthy negb]; confirm_key;
    repeat match goal with
    | |- context [?a <? ?b] => destruct (Z.ltb_spec a b)
    | |- context [?a >? ?b] => destruct (Z.gtb_spec a b)
    end; cbn;
    repeat split; try discriminate; try lia; tauto.
Qed.

(** X7. The resolver cuts the time it is given to whole seconds.  When the
    draft term ends on a whole second and the term lasts whole seconds, the
    cut changes nothing in adjudication: the answer at the cut time is the
    answer at the time itself. *)
Theorem adjudication_exact_on_whole_seconds (nowDate : Z) :
  draftTermEndTime mod 1000 = 0 ->
  CourtConfig.termDuration courtConfig mod 1000 = 0 ->
  getAdjudicationPhase dispute round (dayjs_unix nowDate * 1000)
    draftTermEndTime courtConfig
  = getAdjudicationPhase dispute round nowDate draftTermEndTime courtConfig.
Proof.
  intros Hd Ht.
  apply Z.mod_divide in Hd; [|lia]. apply Z.mod_divide in Ht; [|lia].
  destruct Hd as [d Hd]. destruct Ht as [t Ht].
  assert (forall k, (dayjs_unix nowDate * 1000 <? k * 1000) = (nowDate <? k * 1000))
    as Hcut.
  { intros k. unfold dayjs_unix.
    pose proof (Z.mul_div_le nowDate 1000).
    pose proof (Z.mul_succ_div_gt nowDate 1000).
    destruct (Z.ltb_spec (nowDate / 1000 * 1000) (k * 1000));
      destruct (Z.ltb_spec nowDate (k * 1000)); try reflexivity; lia. }
  unfold getAdjudicationPhase. cbv zeta. rewrite Hd, Ht.
  set (c := CourtConfig.commitTerms courtConfig).
  set (r := CourtConfig.revealTerms courtConfig).
  set (a := CourtConfig.appealTerms courtConfig).
  replace (d * 1000 + c * (t * 1000)) with ((d + c * t) * 1000) by lia.
  replace ((d + c * t) * 1000 + r * (t * 1000))
    with ((d + c * t + r * t) * 1000) by lia.
  replace ((d + c * t + r * t) * 1000 + a * (t * 1000))
    with ((d + c * t + r * t + a * t) * 1000) by lia.
  destruct (CourtConfig.appealConfirmTerms courtConfig) as [ac|];
    cbn [addNum mulNum ltNum option_map]; [|now rewrite !Hcut].
  replace ((d + c * t + r * t + a * t) * 1000 + ac * (t * 1000))
    with ((d + c * t + r * t + a * t + ac * t) * 1000) by lia.
  now rewrite !Hcut.
Qed.

End AdjudicationFacts.

Section EvidenceDelay.

Variable getTermStartTime : Z -> CourtConfig.t -> Z.
Variables (dispute : Dispute.t) (courtConfig : CourtConfig.t).

(** X8. In state Evidence the test is [now > evidenceEnd] on the time cut to
    whole seconds: when evidence submission ends on a whole second, the
    phase turns to JuryDrafting one full second after that end and not
    before. *)
Theorem jury_drafting_one_second_late (nowDate : Z) (current : Current.t) :
  Dispute.state dispute = Evidence ->
  (Dispute.createdAt dispute
   + CourtConfig.termDuration courtConfig
     * CourtConfig.evidenceTerms courtConfig) mod 1000 = 0 ->
  getPhaseAndTransition getTermStartTime dispute courtConfig nowDate
    = Return (Some current) ->
  (Current.phase current = JuryDrafting
     <-> Dispute.createdAt dispute
         + CourtConfig.termDuration courtConfig
           * CourtConfig.evidenceTerms courtConfig + 1000 <= nowDate) /\
  (Current.phase current = Evidence
     <-> nowDate < Dispute.createdAt dispute
                   + CourtConfig.termDuration courtConfig
                     * CourtConfig.evidenceTerms courtConfig + 1000).
Proof.
  intros Hs Hend. unfold getPhaseAndTransition.
  destruct (index _ _) as [lastRound|]; cbn [bind defined]; [|discriminate].
  rewrite Hs. phase_tests. cbv zeta.
  apply Z.mod_divide in Hend; [|lia]. destruct Hend as [e He].
  rewrite He. unfold dayjs_unix.
  pose proof (Z.mul_div_le nowDate 1000).
  pose proof (Z.mul_succ_div_gt nowDate 1000).
  destruct (Z.gtb_spec (nowDate / 1000 * 1000) (e * 1000));
    intros [= <-]; cbn; repeat split; intros; try discriminate;
    try reflexivity; lia.
Qed.

End EvidenceDelay.

(* ===================================================================== *)
(** ** Further properties of the timeline *)
(* ===================================================================== *)

(** A slice from the start is a prefix. *)
Lemma slice_is_prefix (A : Type) (arr : list A) (stop : Z) :
  exists k, slice arr 0 stop = firstn k arr.
Proof.
  unfold slice. eexists.
  assert (clampIndex (Z.of_nat (List.length arr)) 0 = 0) as ->.
  { unfold clampIndex. cbn [Z.ltb Z.compare]. lia. }
  cbn [Z.to_nat skipn]. reflexivity.
Qed.

Lemma Forall_prefix (A : Type) (P : A -> Prop) (k : nat) (l : list A) :
  Forall P l -> Forall P (firstn k l).
Proof.
  revert l. induction k as [|k IH]; intros l H; [constructor|].
  destruct H; cbn [firstn]; constructor; auto.
Qed.

Section TimeLineFacts.

Variable getTermStartTime : Z -> CourtConfig.t -> Z.
Variables (dispute : Dispute.t) (courtConfig : CourtConfig.t).

Local Abbreviation lastRoundRead :=
  (index (Dispute.rounds dispute) (Dispute.lastRoundId dispute)).
Local Abbreviation knownState :=
  (Dispute.state dispute = Ruled \/ Dispute.state dispute = Evidence \/
   Dispute.state dispute = JuryDrafting \/ Dispute.state dispute = Adjudicating).

(** The outcomes of the resolver, case by case. *)
Lemma getPhaseAndTransition_cases nowDate :
  (lastRoundRead = None /\
   getPhaseAndTransition getTermStartTime dispute courtConfig nowDate
     = Throw TypeError) \/
  (lastRoundRead <> None /\ ~ knownState /\
   getPhaseAndTransition getTermStartTime dispute courtConfig nowDate
     = Return None) \/
  (knownState /\
   exists lastRound current,
     lastRoundRead = Some lastRound /\
     getPhaseAndTransition getTermStartTime dispute courtConfig nowDate
       = Return (Some current) /\
     Current.roundId current = Round.number lastRound).
Proof.
  unfold getPhaseAndTransition.
  destruct (index _ _) as [lastRound|]; cbn [bind defined]; [|now left].
  right.
  destruct (Dispute.state dispute) eqn:Hs; phase_tests; cbv zeta;
    repeat match goal with
    | |- context [if ?c then _ else _] => destruct c
    end;
    try (right; split; [tauto|]; do 2 eexists;
         split; [reflexivity|]; split; reflexivity);
    left; (split; [discriminate|]); (split; [|reflexivity]);
    intros H; decompose [or] H; discriminate.
Qed.

Lemma getPhaseAndTransition_roundId nowDate lastRound current :
  lastRoundRead = Some lastRound ->
  getPhaseAndTransition getTermStartTime dispute courtConfig nowDate
    = Return (Some current) ->
  Current.roundId current = Round.number lastRound.
Proof.
  intros Hl Hr.
  destruct (getPhaseAndTransition_cases nowDate)
    as [[H _]|[(_ & _ & H)|(_ & r & c & H1 & H2 & H3)]]; try congruence.
Qed.

(** X9. The builder returns a timeline exactly when [rounds[lastRoundId]]
    exists and the state is Ruled, Evidence, JuryDrafting or Adjudicating;
    in every other case, an unknown state included, it throws a
    [TypeError]. *)
Theorem timeline_returns_iff_resolved clock :
  ((exists timeLine,
      getDisputeTimeLine getTermStartTime dispute courtConfig clock
        = Return timeLine)
     <-> lastRoundRead <> None /\ knownState) /\
  (getDisputeTimeLine getTermStartTime dispute courtConfig clock
     = Throw TypeError
     <-> lastRoundRead = None \/ ~ knownState).
Proof.
  destruct (getPhaseAndTransition_cases clock)
    as [[Hl Hr]|[(Hl & Hk & Hr)|(Hk & r & c & Hl & Hr & _)]].
  - assert (getDisputeTimeLine getTermStartTime dispute courtConfig clock
            = Throw TypeError) as Hb
      by (unfold getDisputeTimeLine; now rewrite Hr).
    rewrite Hb. split; split; try tauto;
      solve [intros [tl H]; discriminate | intros [H _]; congruence].
  - assert (getDisputeTimeLine getTermStartTime dispute courtConfig clock
            = Throw TypeError) as Hb
      by (unfold getDisputeTimeLine; now rewrite Hr).
    rewrite Hb. split; split; try tauto;
      solve [intros [tl H]; discriminate].
  - rewrite (getDisputeTimeLine_returns _ _ _ _ _ Hr).
    split; split.
    + intros _. split; [congruence|exact Hk].
    + intros _. eexists; reflexivity.
    + discriminate.
    + intros [H|H]; [congruence|tauto].
Qed.

(** X10. The rounds item of a timeline has one ladder per round, in the
    order of the rounds; each is a prefix of that round's five-stage ladder
    and every entry of it carries the number of its round. *)
Theorem ladders_are_prefixes clock current :
  getPhaseAndTransition getTermStartTime dispute courtConfig clock
    = Return (Some current) ->
  exists created evidence ladders,
    getDisputeTimeLine getTermStartTime dispute courtConfig clock
      = Return [Item created; Item evidence; RoundsItem ladders] /\
    List.length ladders = List.length (Dispute.rounds dispute) /\
    Forall2
      (fun round ladder =>
         (exists k,
            ladder = firstn k (roundPhasesAndTime getTermStartTime courtConfig round current)) /\
         Forall (fun entry => Entry.roundId entry = Some (Round.number round))
                ladder)
      (Dispute.rounds dispute) ladders.
Proof.
  intros H. do 3 eexists. split; [apply getDisputeTimeLine_returns, H|].
  split; [apply length_map|].
  induction (Dispute.rounds dispute) as [|round rest IH];
    cbn [map]; constructor; [|exact IH].
  assert (exists k, getRoundPhasesAndTime getTermStartTime courtConfig round current = firstn k (roundPhasesAndTime getTermStartTime courtConfig round current))
    as [k Hk].
  { unfold getRoundPhasesAndTime. cbv zeta.
    destruct (_ <? _); [now exists 5%nat|apply slice_is_prefix]. }
  split; [now exists k|].
  rewrite Hk. apply Forall_prefix.
  eapply Forall_impl; [|apply roundPhasesAndTime_dated].
  now intros entry [_ He].
Qed.

(** X11. Where the timeline has an entry for the current phase, it agrees
    with the countdown: for a dispute in state JuryDrafting, and for one in
    adjudication during VotingPeriod or RevealVote, the ladder of the last
    round ends with the entry of the current phase, marked active, whose
    end time is the [nextTransition] of the resolver. *)
Theorem active_entry_ends_at_next_transition nowDate lastRound current :
  lastRoundRead = Some lastRound ->
  getPhaseAndTransition getTermStartTime dispute courtConfig nowDate
    = Return (Some current) ->
  Dispute.state dispute = JuryDrafting \/
  (Dispute.state dispute = Adjudicating /\
   (Current.phase current = VotingPeriod \/
    Current.phase current = RevealVote)) ->
  exists earlier entry,
    getRoundPhasesAndTime getTermStartTime courtConfig lastRound current
      = earlier ++ [entry] /\
    Entry.phase entry = Current.phase current /\
    Entry.active entry = Some true /\
    Entry.endTime entry = Current.nextTransition current.
Proof.
  intros Hl Hr Hcase.
  pose proof (getPhaseAndTransition_roundId _ _ _ Hl Hr) as Hid.
  symmetry in Hid.
  assert (forall i entry,
            nth_error (roundPhasesAndTime getTermStartTime courtConfig lastRound current) i = Some entry ->
            Entry.phase entry = Current.phase current ->
            getRoundPhasesAndTime getTermStartTime courtConfig lastRound current
              = firstn (S i) (roundPhasesAndTime getTermStartTime courtConfig lastRound current)) as Hcut
    by (intros; now apply getRoundPhasesAndTime_current_round
                  with (entry := entry)).
  revert Hr. unfold getPhaseAndTransition. rewrite Hl. cbn [bind defined].
  destruct Hcase as [Hs | [Hs Hp]]; rewrite Hs; phase_tests; cbv zeta.
  - intros [= Hc]. rewrite (Hcut 0%nat _ eq_refl) by now rewrite <- Hc.
    exists []. eexists. split; [reflexivity|].
    rewrite <- Hc. cbn. repeat split.
  - unfold getAdjudicationPhase. cbv zeta. intros [= <-].
    clear Hid. revert Hp Hcut.
    destruct (Round.appeal lastRound); cbn [truthy negb]; confirm_key;
      repeat match goal with
      | |- context [if ?c then _ else _] => destruct c
      end;
      cbn [Current.phase Current.nextTransition Adjudication.phase
           Adjudication.nextTransition];
      intros Hp Hcut;
      try (exfalso; destruct Hp; discriminate);
      first
        [ rewrite (Hcut 1%nat _ eq_refl) by reflexivity;
          cbn [firstn roundPhasesAndTime]; phase_tests;
          eexists [_]; eexists; split; [reflexivity|];
          cbn; repeat split; f_equal; lia
        | rewrite (Hcut 2%nat _ eq_refl) by reflexivity;
          cbn [firstn roundPhasesAndTime]; phase_tests;
          eexists [_; _]; eexists; split; [reflexivity|];
          cbn; repeat split; f_equal; lia ].
Qed.

(** X12. Once the current phase is Evidence, ExecuteRuling or ClaimRewards,
    none of which is a stage of a round, the last round contributes an
    empty ladder: no stage of it is listed, not even the elapsed ones. *)
Theorem last_round_ladder_empty_outside_stages nowDate lastRound current :
  lastRoundRead = Some lastRound ->
  getPhaseAndTransition getTermStartTime dispute courtConfig nowDate
    = Return (Some current) ->
  Current.phase current = Evidence \/
  Current.phase current = ExecuteRuling \/
  Current.phase current = ClaimRewards ->
  getRoundPhasesAndTime getTermStartTime courtConfig lastRound current = [].
Proof.
  intros Hl Hr Hp.
  pose proof (getPhaseAndTransition_roundId _ _ _ Hl Hr) as Hid.
  apply getRoundPhasesAndTime_no_stage; [now symmetry|].
  cbn. intros H. decompose [or] H; decompose [or] Hp; congruence.
Qed.

(** X13. [active] compares phases only: in the whole ladder of a round that
    came before the current one, the entry of the current phase is marked
    active too, although that round is over. *)
Theorem earlier_round_marks_current_phase round current :
  Round.number round < Current.roundId current ->
  In (Current.phase current)
     [JuryDrafting; VotingPeriod; RevealVote; AppealRuling; ConfirmAppeal] ->
  exists entry,
    In entry (getRoundPhasesAndTime getTermStartTime courtConfig round current) /\
    Entry.phase entry = Current.phase current /\
    Entry.active entry = Some true /\
    Entry.roundId entry = Some (Round.number round).
Proof.
  intros Hlt Hin.
  rewrite getRoundPhasesAndTime_earlier_round by exact Hlt.
  unfold roundPhasesAndTime. cbv zeta.
  cbn [In] in Hin. decompose [or] Hin; try contradiction;
    match goal with H : _ = Current.phase current |- _ => rewrite <- H end;
    phase_tests;
    first
      [ solve [eexists; split; [left; reflexivity | repeat split]]
      | solve [eexists; split; [right; left; reflexivity | repeat split]]
      | solve [eexists; split;
               [right; right; left; reflexivity | repeat split]]
      | solve [eexists; split;
               [right; right; right; left; reflexivity | repeat split]]
      | solve [eexists; split;
               [right; right; right; right; left; reflexivity
               | repeat split]] ].
Qed.

(** X14. For a configuration with non-negative terms the end times of the
    stages VotingPeriod, RevealVote, AppealRuling and ConfirmAppeal of a
    ladder never decrease, and the first three are the commit, reveal and
    appeal boundaries the adjudication resolver compares [now] with. *)
Theorem ladder_end_times_ordered round current :
  nonNegativeConfig courtConfig ->
  let termDuration := CourtConfig.termDuration courtConfig in
  let draftTermEndTime :=
    getTermStartTime (Round.draftTermId round + Round.delayedTerms round)
      courtConfig in
  exists commitEnd revealEnd appealEnd confirmEnd,
    map Entry.endTime
        (skipn 1 (roundPhasesAndTime getTermStartTime courtConfig round current))
      = [Some commitEnd; Some revealEnd; Some appealEnd; Some confirmEnd] /\
    commitEnd <= revealEnd <= appealEnd /\ appealEnd <= confirmEnd /\
    commitEnd
      = draftTermEndTime + CourtConfig.commitTerms courtConfig * termDuration /\
    revealEnd = commitEnd + CourtConfig.revealTerms courtConfig * termDuration /\
    appealEnd = revealEnd + CourtConfig.appealTerms courtConfig * termDuration.
Proof.
  intros (Htd & _ & Hc & Hr & Ha & _ & Hac). cbv zeta.
  do 4 eexists. split; [reflexivity|]. nia.
Qed.

End TimeLineFacts.

(* ===================================================================== *)
(** ** The mock jurors *)
(* ===================================================================== *)

Section MockJurorsFacts.

Variables (Amount MovementType : Type).
Variable accounts : list string.
Variable bigExp : string -> Amount.
Variables (Activation Stake : MovementType).


(** X15. The mock jurors are the first three test accounts, in order, fewer
    when there are fewer accounts; their active balances are [bigExp] of
    10000, 20000 and 30000; and each juror has an activation and a stake
    movement, both of the juror's active balance. *)
Theorem mock_jurors_balances :
  map Juror.id
      (generateJurors Amount MovementType accounts bigExp Activation Stake)
    = firstn 3 accounts /\
  map Juror.activeBalance
      (generateJurors Amount MovementType accounts bigExp Activation Stake)
    = firstn (List.length accounts)
        [bigExp "10000"; bigExp "20000"; bigExp "30000"] /\
  Forall (fun juror =>
            map Movement.amount (Juror.anjMovements juror)
              = [Juror.activeBalance juror; Juror.activeBalance juror] /\
            map Movement.type (Juror.anjMovements juror)
              = [Activation; Stake])
         (generateJurors Amount MovementType accounts bigExp Activation Stake).
Proof.
  unfold generateJurors.
  change numberOfJurors with (Z.of_nat 3).
  destruct accounts as [|a0 [|a1 [|a2 rest]]];
    [| | |rewrite slice_from_start by (cbn [List.length]; lia);
          cbn [List.length firstn]; rewrite firstn_nil];
    lazy; (split; [|split]);
    solve [reflexivity | repeat constructor].
Qed.

End MockJurorsFacts.

Section DisputeLevelEntries.

Variable getTermStartTime : Z -> CourtConfig.t -> Z.
Variables (dispute : Dispute.t) (courtConfig : CourtConfig.t).

(** X16. The timeline opens with the Created entry, ending at the creation
    of the dispute, and the Evidence entry, which is active exactly when the
    current phase is Evidence; in that phase its end time is the
    [nextTransition] of the resolver. *)
Theorem evidence_entry_follows_resolver clock current :
  getPhaseAndTransition getTermStartTime dispute courtConfig clock
    = Return (Some current) ->
  exists evidence rest,
    getDisputeTimeLine getTermStartTime dispute courtConfig clock
      = Return (Item (Entry.mk Created (Some (Dispute.createdAt dispute))
                        None None)
                :: Item evidence :: rest) /\
    Entry.phase evidence = Evidence /\
    (Entry.active evidence = Some true
       <-> Current.phase current = Evidence) /\
    (Entry.active evidence = Some false
       <-> Current.phase current <> Evidence) /\
    (Current.phase current = Evidence ->
       Entry.endTime evidence = Current.nextTransition current).
Proof.
  intros H. do 2 eexists.
  split; [apply getDisputeTimeLine_returns, H|].
  cbn [Entry.phase Entry.active Entry.endTime].
  split; [reflexivity|].
  pose proof (Phase_eqb_eq (Current.phase current) Evidence) as Heq.
  pose proof (Phase_eqb_neq (Current.phase current) Evidence) as Hneq.
  repeat split; try (intros [= E]; tauto); try (intros E; f_equal; tauto).
  intros Hp. revert H. unfold getPhaseAndTransition.
  destruct (index _ _) as [lastRound|]; cbn [bind defined]; [|discriminate].
  destruct (Dispute.state dispute); phase_tests; cbv zeta; try discriminate.
  - destruct (_ >? _); intros [= <-]; cbn in Hp; try discriminate.
    reflexivity.
  - intros [= <-]; discriminate.
  - unfold getAdjudicationPhase; cbv zeta.
    destruct (Round.appeal lastRound); cbn [truthy negb]; confirm_key;
      repeat match goal with
      | |- context [if ?c then _ else _] => destruct c
      end; intros [= <-]; discriminate.
  - intros [= <-]; discriminate.
Qed.

(** X17. Time moves the phase in the states Evidence and Adjudicating only:
    for a dispute in any other state the outcome of the resolver is the same
    at every time. *)
Theorem outcome_fixed_outside_evidence_and_adjudication now1 now2 :
  Dispute.state dispute <> Evidence ->
  Dispute.state dispute <> Adjudicating ->
  getPhaseAndTransition getTermStartTime dispute courtConfig now1
  = getPhaseAndTransition getTermStartTime dispute courtConfig now2.
Proof.
  intros He Ha. unfold getPhaseAndTransition.
  destruct (index _ _) as [lastRound|]; cbn [bind defined]; [|reflexivity].
  destruct (Dispute.state dispute); phase_tests; cbv zeta;
    congruence.
Qed.

End DisputeLevelEntries.

(* ===================================================================== *)
(** ** The further properties at concrete disputes *)
(* ===================================================================== *)

(** The second round of the appealed sample dispute is drafted at term 110,
    which starts at 1 100 000 ms; its commit boundary is 1 120 000. *)

Lemma result_round_is_last_round_witness :
  exists lastRound,
    index (Dispute.rounds (Appealed.dispute Adjudicating))
          (Dispute.lastRoundId (Appealed.dispute Adjudicating))
      = Some lastRound /\
    Current.roundId (Current.mk VotingPeriod (Some 1120000) None 1)
      = Round.number lastRound.
Proof.
  apply (result_round_is_last_round Sample.termStart
           (Appealed.dispute Adjudicating) Sample.config 1110000).
  reflexivity.
Defined.

Lemma claim_rewards_iff_ruled_witness :
  (ClaimRewards = ClaimRewards
     <-> Dispute.state (Sample.dispute Ruled None) = Ruled) /\
  (Some Null = Some Null
     <-> Dispute.state (Sample.dispute Ruled None) = Ruled) /\
  (Some Null = None <-> Dispute.state (Sample.dispute Ruled None) <> Ruled).
Proof.
  apply (claim_rewards_iff_ruled Sample.termStart (Sample.dispute Ruled None)
           Sample.config 25000 (Current.mk ClaimRewards None (Some Null) 0)).
  reflexivity.
Defined.

Lemma no_transition_iff_terminal_witness :
  @None Z = None <-> ExecuteRuling = ExecuteRuling \/ ExecuteRuling = ClaimRewards.
Proof.
  apply (no_transition_iff_terminal Sample.termStart
           (Sample.dispute Adjudicating None) Sample.config 1070000
           (Current.mk ExecuteRuling None None 0)).
  reflexivity.
Defined.

Lemma adjudication_exact_on_whole_seconds_witness :
  getAdjudicationPhase (Sample.dispute Adjudicating None) (Sample.round0 None)
    (dayjs_unix 1019999 * 1000) 1000000 Sample.config
  = getAdjudicationPhase (Sample.dispute Adjudicating None)
      (Sample.round0 None) 1019999 1000000 Sample.config.
Proof.
  apply (adjudication_exact_on_whole_seconds
           (Sample.dispute Adjudicating None) (Sample.round0 None)
           1000000 Sample.config 1019999).
  - reflexivity.
  - reflexivity.
Defined.

Lemma jury_drafting_one_second_late_witness :
  (Evidence = JuryDrafting <-> 0 + 10000 * 2 + 1000 <= 20999) /\
  (Evidence = Evidence <-> 20999 < 0 + 10000 * 2 + 1000).
Proof.
  apply (jury_drafting_one_second_late Sample.termStart
           (Sample.dispute Evidence None) Sample.config 20999
           (Current.mk Evidence (Some 20000) None 0)).
  - reflexivity.
  - reflexivity.
  - reflexivity.
Defined.

Lemma ladders_are_prefixes_witness :
  exists created evidence ladders,
    getDisputeTimeLine Sample.termStart (Appealed.dispute Adjudicating)
      Sample.config 1110000
      = Return [Item created; Item evidence; RoundsItem ladders] /\
    List.length ladders
      = List.length (Dispute.rounds (Appealed.dispute Adjudicating)) /\
    Forall2
      (fun round ladder =>
         (exists k,
            ladder = firstn k
                       (roundPhasesAndTime Sample.termStart Sample.config round
                          (Current.mk VotingPeriod (Some 1120000) None 1))) /\
         Forall (fun entry => Entry.roundId entry = Some (Round.number round))
                ladder)
      (Dispute.rounds (Appealed.dispute Adjudicating)) ladders.
Proof.
  apply (ladders_are_prefixes Sample.termStart (Appealed.dispute Adjudicating)
           Sample.config 1110000
           (Current.mk VotingPeriod (Some 1120000) None 1)).
  reflexivity.
Defined.

Lemma active_entry_ends_at_next_transition_witness :
  exists earlier entry,
    getRoundPhasesAndTime Sample.termStart Sample.config Appealed.round1
      (Current.mk VotingPeriod (Some 1120000) None 1)
      = earlier ++ [entry] /\
    Entry.phase entry = VotingPeriod /\
    Entry.active entry = Some true /\
    Entry.endTime entry = Some 1120000.
Proof.
  apply (active_entry_ends_at_next_transition Sample.termStart
           (Appealed.dispute Adjudicating) Sample.config 1110000
           Appealed.round1 (Current.mk VotingPeriod (Some 1120000) None 1)).
  - reflexivity.
  - reflexivity.
  - right. split; [reflexivity|]. left. reflexivity.
Defined.

Lemma last_round_ladder_empty_outside_stages_witness :
  getRoundPhasesAndTime Sample.termStart Sample.config (Sample.round0 None)
    (Current.mk ExecuteRuling None None 0)
  = [].
Proof.
  apply (last_round_ladder_empty_outside_stages Sample.termStart
           (Sample.dispute Adjudicating None) Sample.config 1070000
           (Sample.round0 None) (Current.mk ExecuteRuling None None 0)).
  - reflexivity.
  - reflexivity.
  - right. left. reflexivity.
Defined.

Lemma earlier_round_marks_current_phase_witness :
  exists entry,
    In entry
       (getRoundPhasesAndTime Sample.termStart Sample.config Appealed.round0
          (Current.mk VotingPeriod (Some 1120000) None 1)) /\
    Entry.phase entry = VotingPeriod /\
    Entry.active entry = Some true /\
    Entry.roundId entry = Some 0.
Proof.
  apply (earlier_round_marks_current_phase Sample.termStart Sample.config
           Appealed.round0 (Current.mk VotingPeriod (Some 1120000) None 1)).
  - cbn. lia.
  - cbn. right. left. reflexivity.
Defined.

Lemma ladder_end_times_ordered_witness :
  exists commitEnd revealEnd appealEnd confirmEnd,
    map Entry.endTime
        (skipn 1 (roundPhasesAndTime Sample.termStart Sample.config
                    (Sample.round0 None)
                    (Current.mk RevealVote (Some 1040000) None 0)))
      = [Some commitEnd; Some revealEnd; Some appealEnd; Some confirmEnd] /\
    commitEnd <= revealEnd <= appealEnd /\ appealEnd <= confirmEnd /\
    commitEnd = 1000000 + 2 * 10000 /\
    revealEnd = commitEnd + 2 * 10000 /\
    appealEnd = revealEnd + 2 * 10000.
Proof.
  apply (ladder_end_times_ordered Sample.termStart Sample.config
           (Sample.round0 None) (Current.mk RevealVote (Some 1040000) None 0)).
  unfold nonNegativeConfig. cbn. lia.
Defined.

Lemma resolver_outcome_by_dispute_witness :
  getPhaseAndTransition Sample.termStart (Sample.noRounds Ruled)
    Sample.config 25000 = Throw TypeError.
Proof.
  apply (resolver_outcome_by_dispute Sample.termStart (Sample.noRounds Ruled)
           Sample.config 25000).
  reflexivity.
Defined.

Lemma adjudication_transition_ahead_witness : 1045000 < 1060000.
Proof.
  apply (proj1 (adjudication_transition_ahead
                  (Sample.dispute Adjudicating None) (Sample.round0 None)
                  1045000 1000000 Sample.config)).
  reflexivity.
Defined.

Lemma appeal_phases_follow_the_appeal_witness :
  Round.appeal (Sample.round0 None) = None /\
  Z.of_nat (List.length (Dispute.rounds (Sample.dispute Adjudicating None)))
    <= CourtConfig.maxRegularAppealRounds Sample.config.
Proof.
  apply (proj1 (appeal_phases_follow_the_appeal
                  (Sample.dispute Adjudicating None) (Sample.round0 None)
                  1045000 1000000 Sample.config)).
  reflexivity.
Defined.

Lemma timeline_returns_iff_resolved_witness :
  getDisputeTimeLine Sample.termStart (Sample.dispute Created None)
    Sample.config 25000 = Throw TypeError.
Proof.
  apply (proj2 (timeline_returns_iff_resolved Sample.termStart
                  (Sample.dispute Created None) Sample.config 25000)).
  right. intros H. decompose [or] H; discriminate.
Defined.

Lemma evidence_entry_follows_resolver_witness :
  exists evidence rest,
    getDisputeTimeLine Sample.termStart (Sample.dispute Evidence None)
      Sample.config 15000
      = Return (Item (Entry.mk Created (Some 0) None None)
                :: Item evidence :: rest) /\
    Entry.phase evidence = Evidence /\
    (Entry.active evidence = Some true <-> Evidence = Evidence) /\
    (Entry.active evidence = Some false <-> Evidence <> Evidence) /\
    (Evidence = Evidence -> Entry.endTime evidence = Some 20000).
Proof.
  apply (evidence_entry_follows_resolver Sample.termStart
           (Sample.dispute Evidence None) Sample.config 15000
           (Current.mk Evidence (Some 20000) None 0)).
  reflexivity.
Defined.

Lemma outcome_fixed_outside_evidence_and_adjudication_witness :
  getPhaseAndTransition Sample.termStart (Sample.dispute JuryDrafting None)
    Sample.config 0
  = getPhaseAndTransition Sample.termStart (Sample.dispute JuryDrafting None)
      Sample.config 9000000.
Proof.
  apply (outcome_fixed_outside_evidence_and_adjudication Sample.termStart
           (Sample.dispute JuryDrafting None) Sample.config 0 9000000).
  - discriminate.
  - discriminate.
Defined.
